(** * ArchaeoAI Mapper: the processing pipeline of [js/app.js]

    A shallow embedding of the class [ArchaeologicalMapper]: its fields are a
    record, its asynchronous methods are computations in a small
    state-and-exception monad, and everything the browser supplies (the
    outcome of each [fetch], the draws of [Math.random], the clock, blob and
    data URLs, the printing of numbers) is read from an environment record.

    Modelling boundaries, stated once:
    - JavaScript numbers are exact rationals ([Qc]); NaN, the infinities and
      the sign of zero are not represented, and arithmetic does not round.
    - An asynchronous method is run from its entry to the settlement of its
      promise without interleaving; the callbacks it hands to [setTimeout]
      are queued in the world and run by [fire].  [runAllProcessing] is also
      given in phases, one per suspension point, so that a call arriving in
      the middle of it can be expressed.
    - Of the calls that write to the page or to the Leaflet map (progress
      bars, the results panel, the legend, popups, the loading overlay) the
      file keeps their effect on the fields of the object and what they read
      of the results, which can raise a [TypeError]; the elements of the page
      are taken to be there and the calls of the map library to complete.
      The conversion of a value to a string, in a template or by
      [toLocaleString], is taken to complete as well.
      [showNotification] is recorded in a log. *)

From Stdlib Require Import ZArith QArith Qcanon Qround String Ascii List Bool Lia Lqa.
From Stdlib Require Import DecimalString.
Import ListNotations.

Local Open Scope string_scope.
Set Warnings "-register-all".

(* ================================================================== *)
(** ** JavaScript values *)

Module Js.

(** The values that [JSON.parse] can return, and [undefined]. An object keeps
    its properties in insertion order, each name once. *)
Inductive Val : Type :=
| Undefined
| Null
| Bool (b : bool)
| Num (q : Qc)
| Str (s : string)
| Arr (items : list Val)
| Obj (props : list (string * Val)).

Definition zero : Val := Num 0%Qc.

Definition is_zero (q : Qc) : bool := Qeq_bool (this q) 0.

(** ToBoolean. *)
Definition truthy (v : Val) : bool :=
  match v with
  | Undefined | Null => false
  | Bool b => b
  | Num q => negb (is_zero q)
  | Str s => negb (String.eqb s "")
  | Arr _ | Obj _ => true
  end.

(** [a || b]. *)
Definition or (a b : Val) : Val := if truthy a then a else b.

Fixpoint lookup (k : string) (props : list (string * Val)) : Val :=
  match props with
  | [] => Undefined
  | (k', v) :: rest => if String.eqb k k' then v else lookup k rest
  end.

(** [v?.k] for a property name [k] that no primitive or array carries:
    [undefined] on [null] and [undefined], the property on an object. *)
Definition opt_get (v : Val) (k : string) : Val :=
  match v with
  | Obj props => lookup k props
  | _ => Undefined
  end.

(** [v.k]: [None] stands for the TypeError raised on [null] and [undefined]. *)
Definition get (v : Val) (k : string) : option Val :=
  match v with
  | Undefined | Null => None
  | _ => Some (opt_get v k)
  end.

Definition nullish (v : Val) : bool :=
  match v with
  | Undefined | Null => true
  | _ => false
  end.

Section ToString.
(** Number::toString is the engine's. *)
Variable number_to_string : Qc -> string.

Fixpoint join (sep : string) (l : list string) : string :=
  match l with
  | [] => ""
  | [s] => s
  | s :: rest => s ++ sep ++ join sep rest
  end.

(** ToString, as a template literal applies it. *)
Fixpoint to_string (v : Val) : string :=
  match v with
  | Undefined => "undefined"
  | Null => "null"
  | Bool true => "true"
  | Bool false => "false"
  | Num q => number_to_string q
  | Str s => s
  | Arr items =>
      join "," (map (fun i => if nullish i then "" else to_string i) items)
  | Obj _ => "[object Object]"
  end.

End ToString.

(** Structural comparison, numbers by value. *)
Fixpoint eqb (a b : Val) {struct a} : bool :=
  match a, b with
  | Undefined, Undefined => true
  | Null, Null => true
  | Bool x, Bool y => Bool.eqb x y
  | Num x, Num y => Qeq_bool (this x) (this y)
  | Str x, Str y => String.eqb x y
  | Arr xs, Arr ys =>
      (fix go (xs ys : list Val) : bool :=
         match xs, ys with
         | [], [] => true
         | x :: xs', y :: ys' => eqb x y && go xs' ys'
         | _, _ => false
         end) xs ys
  | Obj xs, Obj ys =>
      (fix go (xs ys : list (string * Val)) : bool :=
         match xs, ys with
         | [], [] => true
         | (k, x) :: xs', (k', y) :: ys' => String.eqb k k' && eqb x y && go xs' ys'
         | _, _ => false
         end) xs ys
  | _, _ => false
  end.

End Js.

(* ================================================================== *)
(** ** Numbers *)

Definition num (q : Q) : Js.Val := Js.Num (Q2Qc q).
Definition numZ (z : Z) : Js.Val := num (inject_Z z).

(** [Math.floor] and [Math.round]. *)
Definition Math_floor (x : Q) : Z := Qfloor x.
Definition Math_round (x : Q) : Z := Qfloor (x + (1 # 2)).

(** The decimal that [x.toFixed(f)] prints: the sign, and the integer [n]
    for which [n / 10^f] is nearest to [|x|], the larger one on a tie. *)
Record Fixed : Type := mkFixed { negative : bool; scaled : Z; digits : nat }.

Definition pow10 (f : nat) : Z := 10 ^ Z.of_nat f.

Definition toFixed (f : nat) (x : Q) : Fixed :=
  let neg := if Qlt_le_dec x 0 then true else false in
  let a := if neg then Qopp x else x in
  mkFixed neg (Qfloor (a * inject_Z (pow10 f) + (1 # 2))) f.

(** [parseFloat] of such a decimal. *)
Definition parseFloat (d : Fixed) : Q :=
  let v := Qmake (scaled d) (Z.to_pos (pow10 (digits d))) in
  if negative d then Qopp v else v.

Definition string_of_Z (z : Z) : string := NilZero.string_of_int (Z.to_int z).

Fixpoint pad_left (width : nat) (s : string) : string :=
  if Nat.ltb (String.length s) width
  then match width with
       | O => s
       | S w => "0" ++ pad_left w s
       end
  else s.

Definition Fixed_to_string (d : Fixed) : string :=
  let p := pow10 (digits d) in
  let int_part := string_of_Z (scaled d / p) in
  let frac := pad_left (digits d) (string_of_Z (scaled d mod p)) in
  (if negative d then "-" else "") ++ int_part ++ (if Nat.eqb (digits d) 0 then "" else "." ++ frac).

(** Symbolic runs keep the arithmetic folded. *)
#[local] Arguments Z.add : simpl never.
#[local] Arguments Z.mul : simpl never.
#[local] Arguments Qplus : simpl never.
#[local] Arguments Qmult : simpl never.
#[local] Arguments Qminus : simpl never.
#[local] Arguments Qdiv : simpl never.
#[local] Arguments Qfloor : simpl never.
#[local] Arguments Q2Qc : simpl never.
#[local] Arguments inject_Z : simpl never.
Arguments num : simpl never.
Arguments numZ : simpl never.
Arguments Math_floor : simpl never.
Arguments Math_round : simpl never.
Arguments toFixed : simpl never.
Arguments parseFloat : simpl never.
Arguments Fixed_to_string : simpl never.

(* ================================================================== *)
(** ** The browser *)

Record File : Type := mkFile { name : string; size : Z }.

Inductive Body : Type :=
| FormData (file : File)
| Json (payload : Js.Val).

Record Request : Type :=
  mkRequest { url : string; method : string; body : option Body }.

(** What awaiting [fetch] and then [response.json()] can give: the promise
    of [fetch] rejects, or it resolves to a response with its [ok] flag and
    status, whose body parses to a value or makes [json()] reject. *)
Inductive FetchOutcome : Type :=
| NetworkError (message : string)
| Response (ok : bool) (status : Z) (json : Js.Val + string).

Record Env : Type := mkEnv {
  fetch : nat -> Request -> FetchOutcome;   (* by the number of earlier requests *)
  random : nat -> Q;                        (* by the number of earlier draws *)
  now : nat -> string;                      (* [new Date().toISOString()], by reads *)
  createObjectURL : File -> string;
  readAsDataURL : File -> string;
  number_to_string : Qc -> string;
  type_error : string -> string             (* message of the TypeError at [.k]:
                                               read from [null] or [undefined],
                                               or called where it is no function *)
}.

(** [Math.random] returns a number in the half-open unit interval. *)
Definition random_in_range (env : Env) : Prop :=
  forall i, (0 <= random env i)%Q /\ (random env i < 1)%Q.

(* ================================================================== *)
(** ** The object *)

Record Image : Type := mkImage {
  filename : Js.Val;
  original_name : Js.Val;
  image_size : string;
  preview_url : string;
  upload_timestamp : Js.Val;
  server_data : Js.Val
}.

Record Results : Type := mkResults {
  segmentation : Js.Val;
  detection : Js.Val;
  statistics : Js.Val
}.

(** A marker of the artifacts layer: where it was put and what it shows. *)
Record Marker : Type := mkMarker { lat : Q; lng : Q; artifact : Js.Val }.

Record Mapper : Type := mkMapper {
  currentImage : option Image;
  selectedFile : option File;
  processingResults : Results;
  imageOverlay : option string;
  artifactsLayer : option (list Marker);
  segmentationLayer : option unit;
  isOnline : bool;
  baseUrl : string;
  imageBounds : option (list (list Q));
  isProcessing : bool;
  isUploading : bool;
  runningAllProcess : bool
}.

(** The callbacks given to [setTimeout] in the [finally] blocks. *)
Inductive Timer : Type :=
| UploadDone
| StageDone
| RunAllDone.

Record World : Type := mkWorld {
  app : Mapper;
  requests : list Request;
  notifications : list (string * string);
  draws : nat;
  clock_reads : nat;
  timers : list Timer
}.

Definition endpoint_upload := "/api/real/upload".
Definition endpoint_segment := "/api/real/segment".
Definition endpoint_detect := "/api/real/detect".

(** The constructor, before [initApp]. *)
Definition constructor (isProduction : bool) : Mapper :=
  mkMapper None None (mkResults Js.Null Js.Null Js.Null) None None None false
    (if isProduction then "https://archaeological-backend.onrender.com"
     else "http://localhost:5000")
    None false false false.

Definition boot (isProduction : bool) : World :=
  mkWorld (constructor isProduction) [] [] 0 0 [].

(** Field updates. *)
Definition set_currentImage (v : option Image) (m : Mapper) : Mapper :=
  mkMapper v (selectedFile m) (processingResults m) (imageOverlay m)
    (artifactsLayer m) (segmentationLayer m) (isOnline m) (baseUrl m)
    (imageBounds m) (isProcessing m) (isUploading m) (runningAllProcess m).
Definition set_selectedFile (v : option File) (m : Mapper) : Mapper :=
  mkMapper (currentImage m) v (processingResults m) (imageOverlay m)
    (artifactsLayer m) (segmentationLayer m) (isOnline m) (baseUrl m)
    (imageBounds m) (isProcessing m) (isUploading m) (runningAllProcess m).
Definition set_processingResults (v : Results) (m : Mapper) : Mapper :=
  mkMapper (currentImage m) (selectedFile m) v (imageOverlay m)
    (artifactsLayer m) (segmentationLayer m) (isOnline m) (baseUrl m)
    (imageBounds m) (isProcessing m) (isUploading m) (runningAllProcess m).
Definition set_imageOverlay (v : option string) (m : Mapper) : Mapper :=
  mkMapper (currentImage m) (selectedFile m) (processingResults m) v
    (artifactsLayer m) (segmentationLayer m) (isOnline m) (baseUrl m)
    (imageBounds m) (isProcessing m) (isUploading m) (runningAllProcess m).
Definition set_artifactsLayer (v : option (list Marker)) (m : Mapper) : Mapper :=
  mkMapper (currentImage m) (selectedFile m) (processingResults m) (imageOverlay m)
    v (segmentationLayer m) (isOnline m) (baseUrl m)
    (imageBounds m) (isProcessing m) (isUploading m) (runningAllProcess m).
Definition set_segmentationLayer (v : option unit) (m : Mapper) : Mapper :=
  mkMapper (currentImage m) (selectedFile m) (processingResults m) (imageOverlay m)
    (artifactsLayer m) v (isOnline m) (baseUrl m)
    (imageBounds m) (isProcessing m) (isUploading m) (runningAllProcess m).
Definition set_isOnline (v : bool) (m : Mapper) : Mapper :=
  mkMapper (currentImage m) (selectedFile m) (processingResults m) (imageOverlay m)
    (artifactsLayer m) (segmentationLayer m) v (baseUrl m)
    (imageBounds m) (isProcessing m) (isUploading m) (runningAllProcess m).
Definition set_imageBounds (v : option (list (list Q))) (m : Mapper) : Mapper :=
  mkMapper (currentImage m) (selectedFile m) (processingResults m) (imageOverlay m)
    (artifactsLayer m) (segmentationLayer m) (isOnline m) (baseUrl m)
    v (isProcessing m) (isUploading m) (runningAllProcess m).
Definition set_isProcessing (v : bool) (m : Mapper) : Mapper :=
  mkMapper (currentImage m) (selectedFile m) (processingResults m) (imageOverlay m)
    (artifactsLayer m) (segmentationLayer m) (isOnline m) (baseUrl m)
    (imageBounds m) v (isUploading m) (runningAllProcess m).
Definition set_isUploading (v : bool) (m : Mapper) : Mapper :=
  mkMapper (currentImage m) (selectedFile m) (processingResults m) (imageOverlay m)
    (artifactsLayer m) (segmentationLayer m) (isOnline m) (baseUrl m)
    (imageBounds m) (isProcessing m) v (runningAllProcess m).
Definition set_runningAllProcess (v : bool) (m : Mapper) : Mapper :=
  mkMapper (currentImage m) (selectedFile m) (processingResults m) (imageOverlay m)
    (artifactsLayer m) (segmentationLayer m) (isOnline m) (baseUrl m)
    (imageBounds m) (isProcessing m) (isUploading m) v.

Definition set_segmentation (v : Js.Val) (r : Results) : Results :=
  mkResults v (detection r) (statistics r).
Definition set_detection (v : Js.Val) (r : Results) : Results :=
  mkResults (segmentation r) v (statistics r).
Definition set_statistics (v : Js.Val) (r : Results) : Results :=
  mkResults (segmentation r) (detection r) v.

Definition with_app (f : Mapper -> Mapper) (w : World) : World :=
  mkWorld (f (app w)) (requests w) (notifications w) (draws w)
    (clock_reads w) (timers w).

(* ================================================================== *)
(** ** Asynchronous computations *)

(** How a computation ends: with a value, or with a thrown error, of which
    the message is kept. *)
Inductive Completion (A : Type) : Type :=
| Normal (a : A)
| Throw (message : string).
Arguments Normal {A} a.
Arguments Throw {A} message.

Definition Async (A : Type) : Type := World -> Completion A * World.

Definition ret {A} (a : A) : Async A := fun w => (Normal a, w).

Definition bind {A B} (m : Async A) (k : A -> Async B) : Async B :=
  fun w =>
    match m w with
    | (Normal a, w') => k a w'
    | (Throw e, w') => (Throw e, w')
    end.

Definition throw {A} (message : string) : Async A := fun w => (Throw message, w).

Notation "x <- m ;; k" := (bind m (fun x => k))
  (at level 61, m at next level, right associativity).
Notation "m ;; k" := (bind m (fun _ => k))
  (at level 61, right associativity).

(** [try { body } catch (error) { handler }]. *)
Definition try_catch {A} (body : Async A) (handler : string -> Async A) : Async A :=
  fun w =>
    match body w with
    | (Normal a, w') => (Normal a, w')
    | (Throw e, w') => handler e w'
    end.

(** [try { body } finally { final }], where [final] completes normally. *)
Definition try_finally {A} (body : Async A) (final : World -> World) : Async A :=
  fun w => let (c, w') := body w in (c, final w').

Definition modify (f : Mapper -> Mapper) : Async unit :=
  fun w => (Normal tt, with_app f w).

Definition read {A} (f : Mapper -> A) : Async A :=
  fun w => (Normal (f (app w)), w).

Definition when (b : bool) (m : Async unit) : Async unit :=
  if b then m else ret tt.

(** The world a computation leaves, and how it completed. *)
Definition exec {A} (m : Async A) (w : World) : World := snd (m w).
Definition outcome {A} (m : Async A) (w : World) : Completion A := fst (m w).


(* ================================================================== *)
(** ** The methods of [ArchaeologicalMapper] *)

Section Methods.

Variable env : Env.

Definition str (v : Js.Val) : string := Js.to_string (number_to_string env) v.

(** *** Primitive effects *)

Definition showNotification (message type : string) : Async unit :=
  fun w => (Normal tt,
            mkWorld (app w) (requests w) (notifications w ++ [(message, type)])
              (draws w) (clock_reads w) (timers w)).

Definition Math_random : Async Q :=
  fun w => (Normal (random env (draws w)),
            mkWorld (app w) (requests w) (notifications w)
              (S (draws w)) (clock_reads w) (timers w)).

Definition Date_toISOString : Async string :=
  fun w => (Normal (now env (clock_reads w)),
            mkWorld (app w) (requests w) (notifications w)
              (draws w) (S (clock_reads w)) (timers w)).

Definition setTimeout (t : Timer) (w : World) : World :=
  mkWorld (app w) (requests w) (notifications w) (draws w) (clock_reads w)
    (timers w ++ [t]).

Record Resp : Type := mkResp { ok : bool; status : Z; parsed : Js.Val + string }.

(** [await fetch(...)]: the request is issued, and a network error throws. *)
Definition await_fetch (r : Request) : Async Resp :=
  fun w =>
    let w' := mkWorld (app w) (requests w ++ [r]) (notifications w)
                (draws w) (clock_reads w) (timers w) in
    match fetch env (List.length (requests w)) r with
    | NetworkError e => (Throw e, w')
    | Response o s j => (Normal (mkResp o s j), w')
    end.

(** [await response.json()]. *)
Definition response_json (r : Resp) : Async Js.Val :=
  match parsed r with
  | inl v => ret v
  | inr e => throw e
  end.

(** [v.k] on a value that may be [null]. *)
Definition member (v : Js.Val) (k : string) : Async Js.Val :=
  match Js.get v k with
  | Some x => ret x
  | None => throw (type_error env k)
  end.

(** [await this.delay(ms)]: a suspension point and nothing else. *)
Definition delay (ms : Z) : Async unit := ret tt.

(** DOM only. *)
Definition updateBackendStatusUI (isConnected : bool) : Async unit := ret tt.
Definition enableProcessingButtons (enabled : bool) : Async unit := ret tt.
Definition showProgress (containerId statusId message : string) (percentage : Z)
  : Async unit := ret tt.
Definition updateProgress (containerId : string) (percentage : Z) : Async unit :=
  ret tt.
Definition hideProgress (containerId : string) : Async unit := ret tt.
Definition showLoading (title message : string) : Async unit := ret tt.
Definition updateLoadingStep (stepId status : string) : Async unit := ret tt.

(** [this.selectedFile.k] and [this.currentImage.k]. *)
Definition selected_file (k : string) : Async File :=
  f <- read selectedFile;;
  match f with
  | Some file => ret file
  | None => throw (type_error env k)
  end.

Definition current_image (k : string) : Async Image :=
  i <- read currentImage;;
  match i with
  | Some img => ret img
  | None => throw (type_error env k)
  end.

Definition megabytes (file : File) : Q :=
  inject_Z (size file) / inject_Z (1024 * 1024).

(** *** What the page shows of the results *)

(** [v?.toFixed(n)]: a TypeError when [v] is there and is no number. *)
Definition opt_toFixed (v : Js.Val) : Async unit :=
  match v with
  | Js.Undefined | Js.Null | Js.Num _ => ret tt
  | _ => throw (type_error env "toFixed")
  end.

(** [v ? v.toFixed(n) : ...]. *)
Definition truthy_toFixed (v : Js.Val) : Async unit :=
  if Js.truthy v then
    match v with
    | Js.Num _ => ret tt
    | _ => throw (type_error env "toFixed")
    end
  else ret tt.

(** The popup of the segmentation result prints its three percentages. *)
Definition displaySegmentationResult (results : Js.Val) : Async unit :=
  ruins <- member results "ruins_percentage";;
  opt_toFixed ruins;;
  vegetation <- member results "vegetation_percentage";;
  opt_toFixed vegetation;;
  water <- member results "water_percentage";;
  opt_toFixed water.

(** [artifacts.slice(0, n).map(artifact => artifact.type || 'Unknown')]. *)
Fixpoint first_types (n : nat) (items : list Js.Val) : Async unit :=
  match n, items with
  | S n', a :: rest => _ <- member a "type";; first_types n' rest
  | _, _ => ret tt
  end.

(** The entry of the results panel for a segmentation result, a detection
    result or the summary. *)
Definition updateResultsPanel (type : string) (data : Js.Val) : Async unit :=
  if String.eqb type "segmentation" then
    ruins <- member data "ruins_percentage";;
    opt_toFixed ruins;;
    vegetation <- member data "vegetation_percentage";;
    opt_toFixed vegetation;;
    water <- member data "water_percentage";;
    opt_toFixed water;;
    _ <- member data "pixels_analyzed";;
    ret tt
  else if String.eqb type "detection" then
    _ <- member data "total_detected";;
    artifacts <- member data "artifacts";;
    match artifacts with
    | Js.Undefined | Js.Null => ret tt
    | Js.Arr items => first_types 3 items
    | Js.Str _ => throw (type_error env "map")
    | _ => throw (type_error env "slice")
    end
  else if String.eqb type "combined" then
    ruins <- member data "ruins_coverage";;
    opt_toFixed ruins;;
    vegetation <- member data "vegetation_coverage";;
    opt_toFixed vegetation
  else ret tt.

(** [artifacts.filter(a => a.type?.includes('Structure') ||
    a.type?.includes('Building'))]. *)
Fixpoint count_structures (items : list Js.Val) : Async unit :=
  match items with
  | [] => ret tt
  | a :: rest =>
      type <- member a "type";;
      match type with
      | Js.Undefined | Js.Null | Js.Str _ | Js.Arr _ => count_structures rest
      | _ => throw (type_error env "includes")
      end
  end.

(** The legend prints the three percentages of the segmentation slot and
    counts the structures of the detection slot. *)
Definition updateLegendValues : Async unit :=
  seg <- read (fun m => segmentation (processingResults m));;
  det <- read (fun m => detection (processingResults m));;
  truthy_toFixed (Js.opt_get seg "ruins_percentage");;
  truthy_toFixed (Js.opt_get seg "vegetation_percentage");;
  truthy_toFixed (Js.opt_get seg "water_percentage");;
  match Js.opt_get det "artifacts" with
  | Js.Undefined | Js.Null => ret tt
  | Js.Arr items => count_structures items
  | _ => throw (type_error env "filter")
  end.

(** Name and size of the image, and the legend. *)
Definition updateImageInfoUI : Async unit := updateLegendValues.

(** *** Connectivity *)

Definition checkBackendStatus : Async unit :=
  try_catch
    (base <- read baseUrl;;
     response <- await_fetch (mkRequest base "GET" None);;
     if ok response then
       data <- response_json response;;
       modify (set_isOnline true);;
       updateBackendStatusUI true;;
       showNotification "Backend server connected successfully" "success"
     else
       throw ("HTTP " ++ str (numZ (status response))))
    (fun error =>
       modify (set_isOnline false);;
       updateBackendStatusUI false;;
       showNotification "Running in offline mode. Basic features available." "warning").

(** *** Upload *)

Definition image_bounds : list (list Q) :=
  [[29971 # 1000; 31127 # 1000]; [29982 # 1000; 31138 # 1000]]%Q.

Definition displayImage (imgUrl : string) : Async unit :=
  modify (set_artifactsLayer None);;
  modify (set_segmentationLayer None);;
  modify (set_imageOverlay (Some imgUrl));;
  modify (set_imageBounds (Some image_bounds)).

Definition displayLocalImage (file : File) : Async unit :=
  displayImage (readAsDataURL env file).

Definition uploadToBackend : Async unit :=
  formData <- read selectedFile;;
  updateProgress "uploadProgress" 30;;
  try_catch
    (base <- read baseUrl;;
     response <- await_fetch
       (mkRequest (base ++ endpoint_upload) "POST"
          (option_map FormData formData));;
     if ok response then
       result <- response_json response;;
       success <- member result "success";;
       if Js.truthy success then
         size_text <-
           (if Js.truthy (Js.opt_get result "file_size_mb")
            then ret (str (Js.opt_get result "file_size_mb") ++ " MB")
            else file <- selected_file "size";;
                 ret (str (numZ (Math_round (megabytes file))) ++ " MB"));;
         let image :=
           mkImage (Js.opt_get result "filename")
             (Js.opt_get result "original_name")
             size_text
             (base ++ str (Js.opt_get result "preview_url"))
             (Js.opt_get result "upload_timestamp")
             result in
         modify (set_currentImage (Some image));;
         updateProgress "uploadProgress" 100;;
         showNotification "Image uploaded successfully to server" "success";;
         displayImage (preview_url image)
       else
         throw (str (Js.or (Js.opt_get result "error") (Js.Str "Upload failed")))
     else
       throw ("Upload failed: " ++ str (numZ (status response))))
    (fun error => throw error);;
  updateImageInfoUI;;
  enableProcessingButtons true.

Definition uploadOffline : Async unit :=
  updateProgress "uploadProgress" 50;;
  delay 1000;;
  file <- selected_file "name";;
  timestamp <- Date_toISOString;;
  modify (set_currentImage (Some
    (mkImage (Js.Str (name file)) (Js.Str (name file))
       (Fixed_to_string (toFixed 2 (megabytes file)) ++ " MB")
       (createObjectURL env file)
       (Js.Str timestamp)
       Js.Null)));;
  updateProgress "uploadProgress" 100;;
  showNotification "Image loaded for offline processing" "success";;
  displayLocalImage file;;
  updateImageInfoUI;;
  enableProcessingButtons true.

Definition uploadImage : Async unit :=
  file <- read selectedFile;;
  match file with
  | None => showNotification "Please select an image file first" "warning"
  | Some _ =>
      uploading <- read isUploading;;
      if uploading : bool then
        showNotification "Upload already in progress" "warning"
      else
        modify (set_isUploading true);;
        modify (set_isProcessing true);;
        showProgress "uploadProgress" "uploadStatus" "Uploading image..." 0;;
        try_finally
          (try_catch
             (online <- read isOnline;;
              if online : bool then uploadToBackend else uploadOffline)
             (fun error =>
                showNotification "Upload failed, using offline mode" "warning";;
                modify (set_isOnline false);;
                updateBackendStatusUI false;;
                uploadOffline))
          (setTimeout UploadDone)
  end.

(** *** Segmentation *)

Definition store_segmentation (v : Js.Val) (m : Mapper) : Mapper :=
  set_processingResults (set_segmentation v (processingResults m)) m.
Definition store_detection (v : Js.Val) (m : Mapper) : Mapper :=
  set_processingResults (set_detection v (processingResults m)) m.
Definition store_statistics (v : Js.Val) (m : Mapper) : Mapper :=
  set_processingResults (set_statistics v (processingResults m)) m.

Definition runBackendSegmentation : Async unit :=
  updateProgress "processingProgress" 50;;
  try_catch
    (base <- read baseUrl;;
     image <- current_image "filename";;
     response <- await_fetch
       (mkRequest (base ++ endpoint_segment) "POST"
          (Some (Json (Js.Obj [("filename", filename image)]))));;
     if ok response then
       result <- response_json response;;
       success <- member result "success";;
       if Js.truthy success then
         modify (store_segmentation result);;
         updateProgress "processingProgress" 100;;
         let ruinsPercent := Js.or (Js.opt_get result "ruins_percentage") Js.zero in
         showNotification
           ("Segmentation complete: " ++ str ruinsPercent ++ "% ruins detected")
           "success";;
         displaySegmentationResult result;;
         updateResultsPanel "segmentation" result;;
         updateLegendValues
       else
         throw (str (Js.or (Js.opt_get result "error") (Js.Str "Segmentation failed")))
     else
       throw ("Segmentation failed: " ++ str (numZ (status response))))
    (fun error => throw error).

(** [parseFloat((Math.random() * span + low).toFixed(f))]. *)
Definition random_fixed (span low : Q) (f : nat) : Async Js.Val :=
  r <- Math_random;;
  ret (num (parseFloat (toFixed f (r * span + low)))).

(** [Math.floor(Math.random() * span + low)]. *)
Definition random_floor (span low : Q) : Async Z :=
  r <- Math_random;;
  ret (Math_floor (r * span + low)).

Definition runOfflineSegmentation : Async unit :=
  delay 1500;;
  ruins <- random_fixed 40 20 2;;
  vegetation <- random_fixed 30 10 2;;
  water <- random_fixed 5 1 2;;
  pixels <- random_floor 500000 0;;
  let results := Js.Obj
    [("ruins_percentage", ruins);
     ("vegetation_percentage", vegetation);
     ("water_percentage", water);
     ("pixels_analyzed", numZ (1000000 + pixels));
     ("image_size", Js.Str "1920x1080");
     ("success", Js.Bool true);
     ("segmentation_url", Js.Null)] in
  modify (store_segmentation results);;
  updateProgress "processingProgress" 100;;
  all <- read runningAllProcess;;
  when (negb all)
    (showNotification "Site features segmented (offline mode)" "success");;
  displaySegmentationResult results;;
  updateResultsPanel "segmentation" results;;
  updateLegendValues.

(** [this.isOnline && this.currentImage.filename]. *)
Definition use_backend : Async bool :=
  online <- read isOnline;;
  if online : bool then
    image <- current_image "filename";;
    ret (Js.truthy (filename image))
  else ret false.

Definition runSegmentation : Async unit :=
  image <- read currentImage;;
  match image with
  | None => showNotification "Please upload an image first" "warning"
  | Some _ =>
      processing <- read isProcessing;;
      all <- read runningAllProcess;;
      if processing && negb all then
        showNotification "Another process is currently running" "warning"
      else
        when (negb all) (modify (set_isProcessing true));;
        showProgress "processingProgress" "processingStatus"
          "Analyzing site features..." 30;;
        try_finally
          (try_catch
             (remote <- use_backend;;
              if remote : bool then runBackendSegmentation
              else runOfflineSegmentation)
             (fun error =>
                showNotification "Segmentation failed, trying offline mode" "warning";;
                online <- read isOnline;;
                when online
                  (modify (set_isOnline false);;
                   updateBackendStatusUI false;;
                   runOfflineSegmentation)))
          (setTimeout StageDone)
  end.

(** *** Detection *)

Definition artifactTypes : list string :=
  ["Pottery"; "Tool"; "Structure"; "Ceramic"; "Bone"; "Stone Tool"; "Vessel";
   "Ornament"].

(** [artifactTypes[i]]. *)
Definition artifact_type (i : Z) : Js.Val :=
  if (i <? 0)%Z then Js.Undefined
  else match nth_error artifactTypes (Z.to_nat i) with
       | Some t => Js.Str t
       | None => Js.Undefined
       end.

(** [marker.addTo(this.artifactsLayer)]. *)
Definition add_marker (marker : Marker) (m : Mapper) : Mapper :=
  set_artifactsLayer
    (Some (match artifactsLayer m with
           | Some markers => (markers ++ [marker])%list
           | None => [marker]
           end)) m.

(** [forEach] over the artifacts: two draws for the position, the marker
    with a radius from the area, then the popup, which prints the area. *)
Fixpoint place_markers (items : list Js.Val) : Async unit :=
  match items with
  | [] => ret tt
  | a :: rest =>
      r1 <- Math_random;;
      r2 <- Math_random;;
      area <- member a "area";;
      modify (add_marker
                (mkMarker ((299765 # 10000) + (r1 - (1 # 2)) * (1 # 100))
                          ((311325 # 10000) + (r2 - (1 # 2)) * (1 # 100)) a));;
      opt_toFixed area;;
      place_markers rest
  end.

Definition displayDetectionResult (results : Js.Val) : Async unit :=
  modify (set_artifactsLayer (Some []));;
  artifacts <- member results "artifacts";;
  match artifacts with
  | Js.Undefined | Js.Null => ret tt
  | Js.Arr items => place_markers items
  | _ => throw (type_error env "forEach")
  end.

Definition runBackendDetection : Async unit :=
  updateProgress "processingProgress" 70;;
  try_catch
    (base <- read baseUrl;;
     image <- current_image "filename";;
     response <- await_fetch
       (mkRequest (base ++ endpoint_detect) "POST"
          (Some (Json (Js.Obj [("filename", filename image)]))));;
     if ok response then
       result <- response_json response;;
       success <- member result "success";;
       if Js.truthy success then
         modify (store_detection result);;
         updateProgress "processingProgress" 100;;
         let count := Js.or (Js.opt_get result "total_detected") Js.zero in
         all <- read runningAllProcess;;
         when (negb all)
           (showNotification ("Found " ++ str count ++ " artifacts") "success");;
         displayDetectionResult result;;
         updateResultsPanel "detection" result;;
         updateLegendValues
       else
         throw (str (Js.or (Js.opt_get result "error") (Js.Str "Detection failed")))
     else
       throw ("Detection failed: " ++ str (numZ (status response))))
    (fun error => throw error).

(** One turn of the loop: the artifact pushed for index [i]. *)
Definition make_artifact (i : Z) : Async Js.Val :=
  type_ix <- random_floor (inject_Z (Z.of_nat (List.length artifactTypes))) 0;;
  confidence <- random_fixed (3 # 10) (7 # 10) 3;;
  area <- random_floor 2000 500;;
  cx <- random_floor 1000 0;;
  cy <- random_floor 1000 0;;
  bx <- random_floor 800 0;;
  by_ <- random_floor 800 0;;
  bw <- random_floor 200 50;;
  bh <- random_floor 200 50;;
  ret (Js.Obj
    [("id", numZ (i + 1));
     ("type", artifact_type type_ix);
     ("confidence", confidence);
     ("area", numZ area);
     ("center", Js.Arr [numZ cx; numZ cy]);
     ("bbox", Js.Arr [numZ bx; numZ by_; numZ bw; numZ bh])]).

(** [for (let i = 0; i < numArtifacts; i++) artifacts.push(...)], with
    [todo] turns left. *)
Fixpoint push_artifacts (todo : nat) (i : Z) (artifacts : list Js.Val)
  : Async (list Js.Val) :=
  match todo with
  | O => ret artifacts
  | S todo' =>
      a <- make_artifact i;;
      push_artifacts todo' (i + 1) (artifacts ++ [a])
  end.

Definition runOfflineDetection : Async unit :=
  delay 1500;;
  n <- random_floor 12 0;;
  let numArtifacts := (n + 3)%Z in
  artifacts <- push_artifacts (Z.to_nat numArtifacts) 0 [];;
  let results := Js.Obj
    [("artifacts", Js.Arr artifacts);
     ("total_detected", numZ (Z.of_nat (List.length artifacts)));
     ("success", Js.Bool true);
     ("detection_map", Js.Null)] in
  modify (store_detection results);;
  updateProgress "processingProgress" 100;;
  all <- read runningAllProcess;;
  when (negb all)
    (showNotification
       ("Found " ++ str (numZ (Z.of_nat (List.length artifacts)))
          ++ " artifacts (offline mode)") "success");;
  displayDetectionResult results;;
  updateResultsPanel "detection" results;;
  updateLegendValues.

Definition detectArtifacts : Async unit :=
  image <- read currentImage;;
  match image with
  | None => showNotification "Please upload an image first" "warning"
  | Some _ =>
      processing <- read isProcessing;;
      all <- read runningAllProcess;;
      if processing && negb all then
        showNotification "Another process is currently running" "warning"
      else
        when (negb all) (modify (set_isProcessing true));;
        showProgress "processingProgress" "processingStatus"
          "Detecting artifacts..." 50;;
        try_finally
          (try_catch
             (remote <- use_backend;;
              if remote : bool then runBackendDetection
              else runOfflineDetection)
             (fun error =>
                showNotification "Detection failed, trying offline mode" "warning";;
                online <- read isOnline;;
                when online
                  (modify (set_isOnline false);;
                   updateBackendStatusUI false;;
                   runOfflineDetection)))
          (setTimeout StageDone)
  end.

(** *** Combined statistics *)

Definition generateCombinedStatistics : Async unit :=
  seg <- read (fun m => segmentation (processingResults m));;
  det <- read (fun m => detection (processingResults m));;
  timestamp <- Date_toISOString;;
  image <- read currentImage;;
  online <- read isOnline;;
  let image_name :=
    Js.or (match image with
           | Some i => original_name i
           | None => Js.Undefined
           end) (Js.Str "Unknown") in
  let ruins := Js.or (Js.opt_get seg "ruins_percentage") Js.zero in
  let count := Js.or (Js.opt_get det "total_detected") Js.zero in
  let stats := Js.Obj
    [("timestamp", Js.Str timestamp);
     ("image_name", image_name);
     ("ruins_coverage", ruins);
     ("vegetation_coverage", Js.or (Js.opt_get seg "vegetation_percentage") Js.zero);
     ("water_coverage", Js.or (Js.opt_get seg "water_percentage") Js.zero);
     ("artifact_count", count);
     ("processing_mode", Js.Str (if online : bool then "Online" else "Offline"));
     ("summary",
      Js.Str ("Analysis complete: " ++ str ruins ++ "% ruins, " ++ str count
                ++ " artifacts"))] in
  modify (store_statistics stats);;
  updateResultsPanel "combined" stats.

(** *** The complete run, in phases *)

(** The checks at entry and the taking of both flags; [true] when the run
    goes on. *)
Definition runAll_enter : Async bool :=
  image <- read currentImage;;
  match image with
  | None => showNotification "Please upload an image first" "warning";; ret false
  | Some _ =>
      processing <- read isProcessing;;
      if processing : bool then
        showNotification "Another process is currently running" "warning";;
        ret false
      else
        modify (set_isProcessing true);;
        modify (set_runningAllProcess true);;
        showLoading "Running Complete Analysis"
          "Processing site features and artifacts...";;
        ret true
  end.

Definition runAll_segmentation : Async unit :=
  updateLoadingStep "segmentation" "active";;
  showProgress "processingProgress" "processingStatus"
    "Analyzing site features..." 30;;
  remote <- use_backend;;
  (if remote : bool then runBackendSegmentation else runOfflineSegmentation);;
  hideProgress "processingProgress";;
  delay 1000.

Definition runAll_detection : Async unit :=
  updateLoadingStep "segmentation" "completed";;
  updateLoadingStep "detection" "active";;
  showProgress "processingProgress" "processingStatus"
    "Detecting artifacts..." 50;;
  remote <- use_backend;;
  (if remote : bool then runBackendDetection else runOfflineDetection);;
  hideProgress "processingProgress";;
  delay 500.

Definition runAll_analysis : Async unit :=
  updateLoadingStep "detection" "completed";;
  updateLoadingStep "analysis" "active";;
  generateCombinedStatistics;;
  delay 1000;;
  updateLoadingStep "analysis" "completed";;
  showNotification "All processing completed successfully!" "success".

Definition runAllProcessing : Async unit :=
  admitted <- runAll_enter;;
  if admitted : bool then
    try_finally
      (try_catch
         (runAll_segmentation;; runAll_detection;; runAll_analysis)
         (fun error => showNotification ("Processing failed: " ++ error) "error"))
      (setTimeout RunAllDone)
  else ret tt.

(** *** Clearing *)

Definition clearResults : Async unit :=
  modify (set_artifactsLayer None);;
  modify (set_processingResults (mkResults Js.Null Js.Null Js.Null));;
  updateLegendValues;;
  showNotification "All results cleared" "info".

(** *** Timers and events *)

Definition run_timer (t : Timer) (m : Mapper) : Mapper :=
  match t with
  | UploadDone => set_isUploading false (set_isProcessing false m)
  | StageDone => if runningAllProcess m then m else set_isProcessing false m
  | RunAllDone => set_runningAllProcess false (set_isProcessing false m)
  end.

Fixpoint remove_nth {A} (n : nat) (l : list A) : list A :=
  match l, n with
  | [], _ => []
  | _ :: rest, O => rest
  | x :: rest, S n' => x :: remove_nth n' rest
  end.

(** The [n]-th pending timer comes due. *)
Definition fire (n : nat) (w : World) : World :=
  match nth_error (timers w) n with
  | Some t =>
      mkWorld (run_timer t (app w)) (requests w) (notifications w) (draws w)
        (clock_reads w) (remove_nth n (timers w))
  | None => w
  end.

(** The listener of the file input. *)
Definition selectFile (file : File) : Async unit :=
  modify (set_selectedFile (Some file));;
  showNotification ("File selected: " ++ name file) "success".

(** *** The map *)

Definition fitToBounds : Async unit :=
  overlay <- read imageOverlay;;
  bounds <- read imageBounds;;
  match overlay, bounds with
  | Some _, Some _ => showNotification "Map fitted to image bounds" "success"
  | _, _ => showNotification "No image loaded" "warning"
  end.

(** What can happen to the page: the two steps of [initApp] that touch the
    object or notify, the listeners of [initEventListeners] that do, and the
    timers.  The listeners left out (layer toggles, side bar, control panel,
    resize) neither write a field nor notify. *)
Inductive Event : Type :=
| Probe                       (* [checkBackendStatus], from [initApp] *)
| FileChosen (file : File)
| UploadClicked
| SegmentClicked
| DetectClicked
| RunAllClicked
| ClearClicked
| TimerDue (n : nat)
| MapFailed                   (* the [catch] of [initMap], from [initApp] *)
| FitClicked
| ExportGeoJSONClicked
| ExportCSVClicked
| ExportPDFClicked
| DownloadClicked.

Definition handle (e : Event) (w : World) : World :=
  match e with
  | Probe => exec checkBackendStatus w
  | FileChosen file => exec (selectFile file) w
  | UploadClicked =>
      match selectedFile (app w) with
      | Some _ => exec uploadImage w
      | None => w
      end
  | SegmentClicked => exec runSegmentation w
  | DetectClicked => exec detectArtifacts w
  | RunAllClicked => exec runAllProcessing w
  | ClearClicked => exec clearResults w
  | TimerDue n => fire n w
  | MapFailed => exec (showNotification "Failed to initialize map" "error") w
  | FitClicked => exec fitToBounds w
  | ExportGeoJSONClicked =>
      exec (showNotification "Exporting GeoJSON data..." "info") w
  | ExportCSVClicked => exec (showNotification "Exporting CSV report..." "info") w
  | ExportPDFClicked => exec (showNotification "Generating PDF report..." "info") w
  | DownloadClicked => exec (showNotification "Downloading report..." "info") w
  end.

Definition run (events : list Event) (w : World) : World :=
  fold_left (fun w e => handle e w) events w.

End Methods.

Definition is_probe (e : Event) : bool :=
  match e with
  | Probe => true
  | _ => false
  end.

(* ================================================================== *)
(** ** What the properties speak of *)

(** The three result slots are absent. *)
Definition results_absent (r : Results) : Prop :=
  segmentation r = Js.Null /\ detection r = Js.Null /\ statistics r = Js.Null.

Definition in_range (lo hi : Q) (v : Js.Val) : bool :=
  match v with
  | Js.Num q => Qle_bool lo (this q) && Qle_bool (this q) hi
  | _ => false
  end.

Arguments in_range : simpl never.

Definition is_number (v : Js.Val) : bool :=
  match v with
  | Js.Num _ => true
  | _ => false
  end.

Definition is_true (v : Js.Val) : bool :=
  match v with
  | Js.Bool b => b
  | _ => false
  end.

(** The bounds of a synthetic segmentation result, every field present. *)
Definition check_segmentation (v : Js.Val) : bool :=
  in_range 20 60 (Js.opt_get v "ruins_percentage")
  && in_range 10 40 (Js.opt_get v "vegetation_percentage")
  && in_range 1 6 (Js.opt_get v "water_percentage")
  && is_number (Js.opt_get v "pixels_analyzed")
  && is_true (Js.opt_get v "success").

Definition is_artifact_type (v : Js.Val) : bool :=
  match v with
  | Js.Str s => existsb (String.eqb s) artifactTypes
  | _ => false
  end.

Definition numbers (n : nat) (v : Js.Val) : bool :=
  match v with
  | Js.Arr items => Nat.eqb (List.length items) n && forallb is_number items
  | _ => false
  end.

Definition check_artifact (a : Js.Val) : bool :=
  is_number (Js.opt_get a "id")
  && is_artifact_type (Js.opt_get a "type")
  && in_range (7 # 10) 1 (Js.opt_get a "confidence")
  && is_number (Js.opt_get a "area")
  && numbers 2 (Js.opt_get a "center")
  && numbers 4 (Js.opt_get a "bbox").

(** The bounds of a synthetic detection result, every field present. *)
Definition check_detection (v : Js.Val) : bool :=
  match Js.opt_get v "artifacts" with
  | Js.Arr items =>
      Nat.leb 3 (List.length items) && Nat.leb (List.length items) 14
      && forallb check_artifact items
      && Js.eqb (Js.opt_get v "total_detected") (numZ (Z.of_nat (List.length items)))
      && is_true (Js.opt_get v "success")
  | _ => false
  end.

(** The outcomes of a stage request that count as a failure of the remote
    stage: no response, a status outside 2xx, a body that is not JSON, or a
    body whose [success] is absent or falsy. *)
Definition remote_failure (o : FetchOutcome) : bool :=
  match o with
  | NetworkError _ => true
  | Response false _ _ => true
  | Response true _ (inr _) => true
  | Response true _ (inl v) => negb (Js.truthy (Js.opt_get v "success"))
  end.

(** The probe found the service: a 2xx response whose body is JSON. *)
Definition reachable (o : FetchOutcome) : bool :=
  match o with
  | Response true _ (inl _) => true
  | _ => false
  end.





Definition seg_of (w : World) : Js.Val := segmentation (processingResults (app w)).
Definition det_of (w : World) : Js.Val := detection (processingResults (app w)).

(* ================================================================== *)
(** ** Invariants, sample sessions and the notions of the later sections *)

(** [I] is kept by [m], however [m] completes. *)
Definition invariant {A} (I : World -> Prop) (m : Async A) : Prop :=
  forall w, I w -> I (exec m w).

(** [m] leaves the world as it is, however it completes. *)
Definition silent {A} (m : Async A) : Prop := forall w, exec m w = w.

(** The mode is Offline and the requests issued so far are [R]. *)
Definition quiet (R : list Request) (w : World) : Prop :=
  isOnline (app w) = false /\ requests w = R.

Definition print_number (q : Qc) : string :=
  if Pos.eqb (Qden (this q)) 1 then string_of_Z (Qnum (this q))
  else Fixed_to_string (toFixed 3 (this q)).

Definition clock (n : nat) : string :=
  "2024-05-01T10:00:0" ++ string_of_Z (Z.of_nat (Nat.min n 9)) ++ ".000Z".

(** A browser whose requests all fail. *)
Definition unreachable_env : Env :=
  mkEnv (fun _ _ => NetworkError "Failed to fetch") (fun _ => 1 # 2) clock
    (fun f => "blob:" ++ name f) (fun f => "data:" ++ name f)
    print_number (fun k => "Cannot read properties of null (reading '" ++ k ++ "')").

(** A browser that reaches a server which answers every request with [o]. *)
Definition answering_env (o : FetchOutcome) : Env :=
  mkEnv (fun _ _ => o) (fun _ => 1 # 2) clock
    (fun f => "blob:" ++ name f) (fun f => "data:" ++ name f)
    print_number (fun k => "Cannot read properties of null (reading '" ++ k ++ "')").

(** The probe succeeds and the upload is accepted; every later request is
    answered with status 500. *)
Definition failing_stage_env : Env :=
  mkEnv (fun n _ =>
           match n with
           | O => Response true 200 (inl (Js.Obj [("status", Js.Str "ok")]))
           | S O => Response true 200
                      (inl (Js.Obj [("success", Js.Bool true);
                                    ("filename", Js.Str "a1b2_site1.jpg");
                                    ("original_name", Js.Str "site1.jpg");
                                    ("file_size_mb", num (24 # 10));
                                    ("preview_url", Js.Str "/uploads/a1b2_site1.jpg");
                                    ("upload_timestamp", Js.Str "2024-05-01T10:00:00")]))
           | _ => Response false 500 (inr "Unexpected token <")
           end)
        (fun _ => 1 # 2) clock
        (fun f => "blob:" ++ name f) (fun f => "data:" ++ name f)
        print_number (fun k => "Cannot read properties of null (reading '" ++ k ++ "')").

Definition site1 : File := mkFile "site1.jpg" 2516582.
Definition site2 : File := mkFile "site2.jpg" 1048576.

(** Offline from the start, one image uploaded. *)
Definition offline_session : World :=
  run unreachable_env [Probe; FileChosen site1; UploadClicked; TimerDue 0]
    (boot true).


(** The image the server of [failing_stage_env] acknowledges. *)
Definition server_image : Image :=
  match currentImage (app (run failing_stage_env
                             [Probe; FileChosen site1; UploadClicked] (boot true))) with
  | Some image => image
  | None => mkImage Js.Undefined Js.Undefined "" "" Js.Undefined Js.Undefined
  end.

(** Online, one image uploaded to the server. *)
Definition online_session : World :=
  run failing_stage_env [Probe; FileChosen site1; UploadClicked; TimerDue 0]
    (boot true).

Definition probe_request (w : World) : Request :=
  mkRequest (baseUrl (app w)) "GET" None.

Definition busy_warning : string * string :=
  ("Another process is currently running", "warning").

Definition success_notes (notes : list (string * string)) : bool :=
  forallb (fun n => String.eqb (snd n) "success") notes.

(** What a synthetic stage leaves behind, apart from its result. *)
Definition stage_frame (w w' : World) : Prop :=
  isOnline (app w') = isOnline (app w)
  /\ requests w' = requests w
  /\ exists notes,
       notifications w' = (notifications w ++ notes)%list
       /\ success_notes notes = true.

Definition advance (n : nat) (w : World) : World :=
  mkWorld (app w) (requests w) (notifications w) (n + draws w) (clock_reads w)
    (timers w).

Definition stage_request (endpoint : string) (m : Mapper) (image : Image) : Request :=
  mkRequest (baseUrl m ++ endpoint) "POST"
    (Some (Json (Js.Obj [("filename", filename image)]))).

(** [w] after a notification. *)
Definition noted (message type : string) (w : World) : World :=
  mkWorld (app w) (requests w) (notifications w ++ [(message, type)])
    (draws w) (clock_reads w) (timers w).

Definition sent (r : Request) (w : World) : World :=
  mkWorld (app w) (requests w ++ [r]) (notifications w) (draws w)
    (clock_reads w) (timers w).

Definition no_error_notes (notes : list (string * string)) : bool :=
  forallb (fun n => negb (String.eqb (snd n) "error")) notes.


(** A single stage called in Online mode, with an image that has a file
    name, when the busy check lets it through. *)
Definition stage_ready (w : World) (image : Image) : Prop :=
  currentImage (app w) = Some image
  /\ Js.truthy (filename image) = true
  /\ isOnline (app w) = true
  /\ isProcessing (app w) && negb (runningAllProcess (app w)) = false.

(* ================================================================== *)
(** ** Methods outside the pipeline, and the notions of the further properties *)

(** The [switch] of [showNotification]: title, header class and icon of the
    toast. *)
Definition toast_style (type : string) : string * string * string :=
  if String.eqb type "success" then ("Success", "bg-success", "fa-check-circle")
  else if String.eqb type "error" then ("Error", "bg-danger", "fa-exclamation-circle")
  else if String.eqb type "warning"
       then ("Warning", "bg-warning", "fa-exclamation-triangle")
  else if String.eqb type "info" then ("Info", "bg-info", "fa-info-circle")
  else ("Notification", "bg-primary", "fa-bell").

Definition known_type (type : string) : bool :=
  existsb (String.eqb type) ["success"; "error"; "warning"; "info"].

(** The image record [uploadOffline] builds. *)
Definition local_image (env : Env) (file : File) (timestamp : string) : Image :=
  mkImage (Js.Str (name file)) (Js.Str (name file))
    (Fixed_to_string (toFixed 2 (megabytes file)) ++ " MB")
    (createObjectURL env file) (Js.Str timestamp) Js.Null.


(** [w] after a reading of the clock. *)
Definition ticked (w : World) : World :=
  mkWorld (app w) (requests w) (notifications w) (draws w) (S (clock_reads w))
    (timers w).

(** What [displayImage] does to the object. *)
Definition displayed (imgUrl : string) (m : Mapper) : Mapper :=
  set_imageBounds (Some image_bounds)
    (set_imageOverlay (Some imgUrl)
       (set_segmentationLayer None (set_artifactsLayer None m))).

(** A request to the configured backend: its root or one of the three
    endpoints. *)
Definition backend_request (base : string) (r : Request) : bool :=
  existsb (fun path => String.eqb (url r) (base ++ path))
    [""; endpoint_upload; endpoint_segment; endpoint_detect].

(** The three flags and the queue of timers. *)
Definition holds_flags (processing uploading all : bool) (queue : list Timer)
    (w : World) : Prop :=
  isProcessing (app w) = processing
  /\ isUploading (app w) = uploading
  /\ runningAllProcess (app w) = all
  /\ timers w = queue.

(** A result slot is empty or holds an object whose [success] is truthy. *)
Definition slot_ok (v : Js.Val) : bool :=
  match v with
  | Js.Null => true
  | _ => Js.truthy (Js.opt_get v "success")
  end.

(** Offline, an upload has completed and its timer is still pending. *)
Definition uploading_session : World :=
  run unreachable_env [Probe; FileChosen site1; UploadClicked] (boot true).

(** Every request issued so far went to the backend at [base], which is
    still the configured one. *)
Definition to_backend (base : string) (w : World) : Prop :=
  baseUrl (app w) = base
  /\ forallb (backend_request base) (requests w) = true.

(** Every notification raised so far has one of the four types that the
    toast knows. *)
Definition types_known (w : World) : Prop :=
  forallb (fun n => known_type (snd n)) (notifications w) = true.

(** Neither the segmentation nor the detection slot holds a failed result. *)
Definition slots_ok (w : World) : Prop :=
  slot_ok (segmentation (processingResults (app w))) = true
  /\ slot_ok (detection (processingResults (app w))) = true.

(** The uploaded image, its overlay on the map and the bounds of the
    overlay are all there or all missing. *)
Definition image_state (m : Mapper) : bool :=
  match currentImage m, imageOverlay m, imageBounds m with
  | None, None, None => true
  | Some _, Some _, Some _ => true
  | _, _, _ => false
  end.

Definition shown (w : World) : Prop :=
  currentImage (app w) <> None
  /\ imageOverlay (app w) <> None
  /\ imageBounds (app w) <> None.

(** The three image fields of [w] are those of [m]. *)
Definition same_image (m : Mapper) (w : World) : Prop :=
  currentImage (app w) = currentImage m
  /\ imageOverlay (app w) = imageOverlay m
  /\ imageBounds (app w) = imageBounds m.

(** The artifacts of a detection result, as [forEach] visits them. *)
Definition items_of (results : Js.Val) : list Js.Val :=
  match Js.opt_get results "artifacts" with
  | Js.Arr items => items
  | _ => []
  end.

(** A marker between the south-west and the north-east corner of [bounds]. *)
Definition within (bounds : list (list Q)) (m : Marker) : bool :=
  match bounds with
  | [[south; west]; [north; east]] =>
      Qle_bool south (lat m) && Qle_bool (lat m) north
      && Qle_bool west (lng m) && Qle_bool (lng m) east
  | _ => false
  end.

(** A whole number between [lo] and [hi]. *)
Definition whole (lo hi : Z) (v : Js.Val) : bool :=
  match v with
  | Js.Num q =>
      Qeq_bool (this q) (inject_Z (Qfloor (this q)))
      && Z.leb lo (Qfloor (this q)) && Z.leb (Qfloor (this q)) hi
  | _ => false
  end.

(** The number and the geometry, in pixels, of the synthetic artifact pushed
    at index [i].  The bounds are those that hold in the browser too, where
    the sum under [Math.floor] is rounded: [r * 2000 + 500] reaches 2500 for
    a draw next to 1, the other sums stay below their limit. *)
Definition shaped (i : nat) (a : Js.Val) : bool :=
  whole (Z.of_nat (S i)) (Z.of_nat (S i)) (Js.opt_get a "id")
  && whole 500 2500 (Js.opt_get a "area")
  && match Js.opt_get a "center" with
     | Js.Arr [x; y] => whole 0 999 x && whole 0 999 y
     | _ => false
     end
  && match Js.opt_get a "bbox" with
     | Js.Arr [x; y; width; height] =>
         whole 0 799 x && whole 0 799 y
         && whole 50 249 width && whole 50 249 height
     | _ => false
     end.

Fixpoint numbered (i : nat) (items : list Js.Val) : bool :=
  match items with
  | [] => true
  | a :: rest => shaped i a && numbered (S i) rest
  end.

(** The result object that [runOfflineDetection] builds around its
    artifacts. *)
Definition synthetic_detection (items : list Js.Val) : Js.Val :=
  Js.Obj [("artifacts", Js.Arr items);
          ("total_detected", numZ (Z.of_nat (List.length items)));
          ("success", Js.Bool true);
          ("detection_map", Js.Null)].


(** The data on which the calls that show the results complete.  The popup
    and the panel print a percentage or an area with
    [v?.toFixed(n)], which needs [v] absent or a number; the legend prints
    [v ? v.toFixed(1) : ...]; panel, legend and markers go through the
    artifacts with [artifacts?.slice], [?.filter] and [?.forEach], reading
    [a.area?.toFixed] and [a.type?.includes] of each. *)
Definition fixable (v : Js.Val) : bool :=
  match v with
  | Js.Undefined | Js.Null | Js.Num _ => true
  | _ => false
  end.

Definition legend_fixable (v : Js.Val) : bool :=
  negb (Js.truthy v) || is_number v.

Definition showable_artifact (a : Js.Val) : bool :=
  match a with
  | Js.Undefined | Js.Null => false
  | _ =>
      fixable (Js.opt_get a "area")
      && match Js.opt_get a "type" with
         | Js.Undefined | Js.Null | Js.Str _ | Js.Arr _ => true
         | _ => false
         end
  end.

(** An artifact of which a marker with its popup can be made. *)
Definition markable_artifact (a : Js.Val) : bool :=
  negb (Js.nullish a) && fixable (Js.opt_get a "area").

(** The artifacts of a detection result can be put on the map. *)
Definition markable (det : Js.Val) : bool :=
  match Js.opt_get det "artifacts" with
  | Js.Undefined | Js.Null => true
  | Js.Arr items => forallb markable_artifact items
  | _ => false
  end.

(** The artifacts of a detection result can be shown. *)
Definition showable (det : Js.Val) : bool :=
  match Js.opt_get det "artifacts" with
  | Js.Undefined | Js.Null => true
  | Js.Arr items => forallb showable_artifact items
  | _ => false
  end.




(** Every flag that is set has a timer pending that resets it: the upload
    flag its [UploadDone], the run-all flag its [RunAllDone], and the busy
    flag some timer. *)
Definition releasable (w : World) : Prop :=
  (isUploading (app w) = true -> In UploadDone (timers w))
  /\ (runningAllProcess (app w) = true -> In RunAllDone (timers w))
  /\ (isProcessing (app w) = true -> timers w <> []).

(** The summary that [generateCombinedStatistics] stores when it starts
    in [w]. *)
Definition summary_of (env : Env) (w : World) : Js.Val :=
  let ruins := Js.or (Js.opt_get (seg_of w) "ruins_percentage") Js.zero in
  let count := Js.or (Js.opt_get (det_of w) "total_detected") Js.zero in
  Js.Obj
    [("timestamp", Js.Str (now env (clock_reads w)));
     ("image_name",
      Js.or (match currentImage (app w) with
             | Some i => original_name i
             | None => Js.Undefined
             end) (Js.Str "Unknown"));
     ("ruins_coverage", ruins);
     ("vegetation_coverage",
      Js.or (Js.opt_get (seg_of w) "vegetation_percentage") Js.zero);
     ("water_coverage", Js.or (Js.opt_get (seg_of w) "water_percentage") Js.zero);
     ("artifact_count", count);
     ("processing_mode",
      Js.Str (if isOnline (app w) then "Online" else "Offline"));
     ("summary",
      Js.Str ("Analysis complete: " ++ str env ruins ++ "% ruins, "
                ++ str env count ++ " artifacts"))].



(* ================================================================== *)
(** ** Clearing and combining *)

(** Running one step at a time. *)
Lemma bind_runs {A B} (m : Async A) (k : A -> Async B) (w w' : World) (a : A) :
  m w = (Normal a, w') -> bind m k w = k a w'.
Proof. intro H. unfold bind. now rewrite H. Qed.

Lemma bind_bind {A B C} (m : Async A) (k : A -> Async B) (k' : B -> Async C)
    (w : World) :
  bind (bind m k) k' w = bind m (fun a => bind (k a) k') w.
Proof. unfold bind. destruct (m w) as [[a|e] w']; reflexivity. Qed.

Lemma random_fixed_runs (env : Env) (span low : Q) (f : nat) (w : World) :
  random_fixed env span low f w
  = (Normal (num (parseFloat (toFixed f (random env (draws w) * span + low)))),
     advance 1 w).
Proof. reflexivity. Qed.

Lemma random_floor_runs (env : Env) (span low : Q) (w : World) :
  random_floor env span low w
  = (Normal (Math_floor (random env (draws w) * span + low)), advance 1 w).
Proof. reflexivity. Qed.

Lemma modify_runs (f : Mapper -> Mapper) (w : World) :
  modify f w = (Normal tt, with_app f w).
Proof. reflexivity. Qed.

Lemma read_runs {A} (f : Mapper -> A) (w : World) :
  read f w = (Normal (f (app w)), w).
Proof. reflexivity. Qed.

Ltac step :=
  first
    [ rewrite bind_bind
    | erewrite bind_runs by apply random_fixed_runs
    | erewrite bind_runs by apply random_floor_runs
    | erewrite bind_runs by apply modify_runs
    | erewrite bind_runs by apply read_runs
    | erewrite bind_runs by reflexivity ].

(** *** What the page shows *)

Section Shows.

Variable env : Env.

Lemma member_runs (v : Js.Val) (k : string) (w : World) :
  Js.nullish v = false -> member env v k w = (Normal (Js.opt_get v k), w).
Proof. intro H. unfold member. now destruct v. Qed.

Lemma opt_toFixed_runs (v : Js.Val) (w : World) :
  fixable v = true -> opt_toFixed env v w = (Normal tt, w).
Proof. intro H. now destruct v. Qed.

Lemma truthy_toFixed_runs (v : Js.Val) (w : World) :
  legend_fixable v = true -> truthy_toFixed env v w = (Normal tt, w).
Proof.
  unfold legend_fixable, truthy_toFixed. intro H.
  destruct (Js.truthy v); [|reflexivity]. now destruct v.
Qed.





Lemma showable_markable_artifact (a : Js.Val) :
  showable_artifact a = true -> markable_artifact a = true.
Proof.
  unfold showable_artifact, markable_artifact.
  destruct a; try discriminate; cbn [Js.nullish negb andb];
    intro H; now apply andb_true_iff in H as [H _].
Qed.

Lemma showable_markable (det : Js.Val) : showable det = true -> markable det = true.
Proof.
  unfold showable, markable.
  destruct (Js.opt_get det "artifacts"); try discriminate; try reflexivity.
  induction items as [|a items IH]; [reflexivity|].
  cbn [forallb]. intro H. apply andb_true_iff in H as [Ha Hi].
  now rewrite (showable_markable_artifact a Ha), IH.
Qed.

Ltac show_step :=
  first
    [ rewrite bind_bind
    | erewrite bind_runs by (apply member_runs; assumption)
    | erewrite bind_runs by (apply opt_toFixed_runs; assumption)
    | erewrite bind_runs by (apply truthy_toFixed_runs; assumption)
    | erewrite bind_runs by reflexivity ].



Lemma first_types_runs (n : nat) (items : list Js.Val) :
  forallb showable_artifact items = true ->
  forall w, first_types env n items w = (Normal tt, w).
Proof.
  revert n. induction items as [|a items IH]; intros n H w;
    [now destruct n|].
  cbn [forallb] in H. apply andb_true_iff in H as [Ha Hi].
  destruct n as [|n]; [reflexivity|].
  cbn [first_types].
  erewrite bind_runs by (apply member_runs; now destruct a). now apply IH.
Qed.

Lemma panel_detection_runs (data : Js.Val) (w : World) :
  Js.nullish data = false -> showable data = true ->
  updateResultsPanel env "detection" data w = (Normal tt, w).
Proof.
  unfold showable. intros Hn H.
  unfold updateResultsPanel. cbn [String.eqb Ascii.eqb Bool.eqb].
  repeat show_step.
  destruct (Js.opt_get data "artifacts"); try discriminate; try reflexivity.
  now apply first_types_runs.
Qed.




(** None of them writes anything. *)
Lemma silent_ret {A} (a : A) : silent (ret a).
Proof. intro w. reflexivity. Qed.

Lemma silent_throw {A} (e : string) : silent (@throw A e).
Proof. intro w. reflexivity. Qed.

Lemma silent_read {A} (f : Mapper -> A) : silent (read f).
Proof. intro w. reflexivity. Qed.

Lemma silent_bind {A B} (m : Async A) (k : A -> Async B) :
  silent m -> (forall a, silent (k a)) -> silent (bind m k).
Proof.
  intros Hm Hk w. specialize (Hm w). unfold exec, bind in *.
  destruct (m w) as [[a|e] w']; cbn [snd] in *; subst w'; [apply Hk | reflexivity].
Qed.

Lemma silent_member (v : Js.Val) (k : string) : silent (member env v k).
Proof. intro w. unfold exec, member. now destruct (Js.get v k). Qed.

Lemma silent_opt_toFixed (v : Js.Val) : silent (opt_toFixed env v).
Proof. intro w. now destruct v. Qed.

Lemma silent_truthy_toFixed (v : Js.Val) : silent (truthy_toFixed env v).
Proof.
  intro w. unfold exec, truthy_toFixed.
  destruct (Js.truthy v); [|reflexivity]. now destruct v.
Qed.

Ltac silent_walk :=
  repeat
    lazymatch goal with
    | |- silent (bind _ _) => apply silent_bind; [|intros ?]
    | |- silent (ret _) => apply silent_ret
    | |- silent (throw _) => apply silent_throw
    | |- silent (read _) => apply silent_read
    | |- silent (member _ _ _) => apply silent_member
    | |- silent (opt_toFixed _ _) => apply silent_opt_toFixed
    | |- silent (truthy_toFixed _ _) => apply silent_truthy_toFixed
    | |- silent (match ?x with _ => _ end) => destruct x
    end.

Lemma silent_first_types (n : nat) (items : list Js.Val) :
  silent (first_types env n items).
Proof.
  revert n. induction items as [|a items IH]; intro n;
    destruct n as [|n]; cbn [first_types]; silent_walk. apply IH.
Qed.

Lemma silent_count_structures (items : list Js.Val) :
  silent (count_structures env items).
Proof.
  induction items as [|a items IH]; cbn [count_structures]; silent_walk;
    exact IH.
Qed.

Lemma silent_displaySegmentationResult (results : Js.Val) :
  silent (displaySegmentationResult env results).
Proof. unfold displaySegmentationResult. silent_walk. Qed.

Lemma silent_updateResultsPanel (type : string) (data : Js.Val) :
  silent (updateResultsPanel env type data).
Proof.
  unfold updateResultsPanel. silent_walk; apply silent_first_types.
Qed.

Lemma silent_updateLegendValues : silent (updateLegendValues env).
Proof.
  unfold updateLegendValues. silent_walk; apply silent_count_structures.
Qed.

Lemma updateLegendValues_exec (w : World) : snd (updateLegendValues env w) = w.
Proof. exact (silent_updateLegendValues w). Qed.

Lemma inv_silent {A} (I : World -> Prop) (m : Async A) :
  silent m -> invariant I m.
Proof. intros H w Hw. now rewrite H. Qed.

End Shows.



(** C9. [clearResults] leaves the segmentation, detection and statistics
    slots absent, and leaves the mode flag and the uploaded image exactly
    as they were; it completes normally on every state. *)
Theorem clearResults_resets_results_only (env : Env) (w : World) :
  outcome (clearResults env) w = Normal tt
  /\ results_absent (processingResults (app (exec (clearResults env) w)))
  /\ isOnline (app (exec (clearResults env) w)) = isOnline (app w)
  /\ currentImage (app (exec (clearResults env) w)) = currentImage (app w).
Proof.
  unfold outcome, exec, clearResults. repeat step.
  unfold results_absent. repeat split.
Qed.

(** What [generateCombinedStatistics] stores, however the panel takes it. *)
Lemma generateCombinedStatistics_exec (env : Env) (w : World) :
  exec (generateCombinedStatistics env) w
  = with_app (store_statistics (summary_of env w)) (ticked w).
Proof.
  unfold exec, generateCombinedStatistics, Date_toISOString. repeat step.
  exact (silent_updateResultsPanel env "combined" _ _).
Qed.








(* ================================================================== *)
(** ** Invariants of computations *)

Section Invariants.

Variable I : World -> Prop.

Lemma inv_ret {A} (a : A) : invariant I (ret a).
Proof. intros w H. exact H. Qed.

Lemma inv_throw {A} (e : string) : invariant I (@throw A e).
Proof. intros w H. exact H. Qed.

Lemma inv_bind {A B} (m : Async A) (k : A -> Async B) :
  invariant I m -> (forall a, invariant I (k a)) -> invariant I (bind m k).
Proof.
  intros Hm Hk w H. specialize (Hm w H).
  unfold exec, bind in *. destruct (m w) as [[a|e] w']; simpl in *.
  - apply (Hk a w' Hm).
  - exact Hm.
Qed.

Lemma inv_try_catch {A} (body : Async A) (handler : string -> Async A) :
  invariant I body -> (forall e, invariant I (handler e)) ->
  invariant I (try_catch body handler).
Proof.
  intros Hb Hh w H. specialize (Hb w H).
  unfold exec, try_catch in *. destruct (body w) as [[a|e] w']; simpl in *.
  - exact Hb.
  - apply (Hh e w' Hb).
Qed.

Lemma inv_try_finally {A} (body : Async A) (final : World -> World) :
  invariant I body -> (forall w, I w -> I (final w)) ->
  invariant I (try_finally body final).
Proof.
  intros Hb Hf w H. specialize (Hb w H).
  unfold exec, try_finally in *. destruct (body w) as [c w']; simpl in *.
  now apply Hf.
Qed.

Lemma inv_when (b : bool) (m : Async unit) :
  invariant I m -> invariant I (when b m).
Proof. intro H. destruct b; [exact H | apply inv_ret]. Qed.

Lemma inv_read {A} (f : Mapper -> A) : invariant I (read f).
Proof. intros w H. exact H. Qed.

Lemma inv_modify (f : Mapper -> Mapper) :
  (forall w, I w -> I (with_app f w)) -> invariant I (modify f).
Proof. intros Hf w H. now apply Hf. Qed.

End Invariants.

Ltac unfold_dom :=
  unfold updateBackendStatusUI, updateImageInfoUI, enableProcessingButtons,
    showProgress, updateProgress, hideProgress, showLoading, updateLoadingStep,
    delay.

(** What shows the results writes nothing. *)
Ltac inv_shown :=
  lazymatch goal with
  | |- invariant _ (member _ _ _) => apply inv_silent, silent_member
  | |- invariant _ (opt_toFixed _ _) => apply inv_silent, silent_opt_toFixed
  | |- invariant _ (displaySegmentationResult _ _) =>
      apply inv_silent, silent_displaySegmentationResult
  | |- invariant _ (updateResultsPanel _ _ _) =>
      apply inv_silent, silent_updateResultsPanel
  | |- invariant _ (updateLegendValues _) =>
      apply inv_silent, silent_updateLegendValues
  end.

Ltac inv_modify_tac :=
  apply inv_modify; intros ? [? ?]; split;
  [first [assumption | reflexivity] | assumption].

(** One step through the structure of a method. *)
Ltac inv_step :=
  lazymatch goal with
  | |- invariant _ (member _ _ _) => inv_shown
  | |- invariant _ (opt_toFixed _ _) => inv_shown
  | |- invariant _ (displaySegmentationResult _ _) => inv_shown
  | |- invariant _ (updateResultsPanel _ _ _) => inv_shown
  | |- invariant _ (updateLegendValues _) => inv_shown
  | |- invariant _ (bind _ _) => apply inv_bind; [|intros ?]
  | |- invariant _ (ret _) => apply inv_ret
  | |- invariant _ (throw _) => apply inv_throw
  | |- invariant _ (try_catch _ _) => apply inv_try_catch; [|intros ?]
  | |- invariant _ (when _ _) => apply inv_when
  | |- invariant _ (read _) => apply inv_read
  | |- invariant _ (modify _) => inv_modify_tac
  | |- invariant _ (match ?x with _ => _ end) => destruct x
  end.

Section Quiet.

Variable env : Env.
Variable R : list Request.

Lemma quiet_showNotification (message type : string) :
  invariant (quiet R) (showNotification message type).
Proof. intros w H. exact H. Qed.

Lemma quiet_Math_random : invariant (quiet R) (Math_random env).
Proof. intros w H. exact H. Qed.

Lemma quiet_Date_toISOString : invariant (quiet R) (Date_toISOString env).
Proof. intros w H. exact H. Qed.

Lemma quiet_setTimeout (t : Timer) (w : World) :
  quiet R w -> quiet R (setTimeout t w).
Proof. intro H. exact H. Qed.

Lemma quiet_random_fixed (span low : Q) (f : nat) :
  invariant (quiet R) (random_fixed env span low f).
Proof. unfold random_fixed. repeat inv_step. apply quiet_Math_random. Qed.

Lemma quiet_random_floor (span low : Q) :
  invariant (quiet R) (random_floor env span low).
Proof. unfold random_floor. repeat inv_step. apply quiet_Math_random. Qed.

Lemma quiet_selected_file (k : string) : invariant (quiet R) (selected_file env k).
Proof. unfold selected_file. repeat inv_step. Qed.

Lemma quiet_current_image (k : string) : invariant (quiet R) (current_image env k).
Proof. unfold current_image. repeat inv_step. Qed.

(** In Offline mode the choice between the two implementations falls on the
    local one. *)
Lemma quiet_by_mode {A} (k : bool -> Async A) :
  invariant (quiet R) (k false) ->
  invariant (quiet R) (online <- read isOnline;; k online).
Proof.
  intros Hl w H. unfold exec, bind, read. simpl.
  destruct H as [H1 H2]. rewrite H1. apply Hl. now split.
Qed.

Lemma quiet_use_backend {A} (k : bool -> Async A) :
  invariant (quiet R) (k false) ->
  invariant (quiet R) (r <- use_backend env;; k r).
Proof.
  intros Hl w H. unfold exec, use_backend, read, bind. simpl.
  destruct H as [H1 H2]. rewrite H1. simpl. apply Hl. now split.
Qed.

Lemma quiet_fallback (m : Async unit) :
  invariant (quiet R) (online <- read isOnline;; when online m).
Proof. apply (quiet_by_mode (fun online => when online m)), inv_ret. Qed.

Lemma quiet_place_markers (items : list Js.Val) :
  invariant (quiet R) (place_markers env items).
Proof.
  induction items as [|a rest IH]; cbn [place_markers].
  - apply inv_ret.
  - repeat inv_step; first [apply quiet_Math_random | exact IH].
Qed.

Lemma quiet_make_artifact (i : Z) : invariant (quiet R) (make_artifact env i).
Proof.
  unfold make_artifact. repeat inv_step;
    first [apply quiet_random_floor | apply quiet_random_fixed].
Qed.

Lemma quiet_push_artifacts (todo : nat) :
  forall i artifacts, invariant (quiet R) (push_artifacts env todo i artifacts).
Proof.
  induction todo as [|todo IH]; intros i artifacts; simpl.
  - apply inv_ret.
  - apply inv_bind; [apply quiet_make_artifact | intro a; apply IH].
Qed.

(** One step through a method in Offline mode: where the mode is read, the
    Offline branch is the one to follow. *)
Ltac quiet_step :=
  lazymatch goal with
  | |- invariant _ (bind (read isOnline) _) =>
      apply quiet_by_mode; cbv beta iota
  | |- invariant _ (bind (use_backend _) _) =>
      apply quiet_use_backend; cbv beta iota
  | |- invariant _ (member _ _ _) => inv_shown
  | |- invariant _ (opt_toFixed _ _) => inv_shown
  | |- invariant _ (displaySegmentationResult _ _) => inv_shown
  | |- invariant _ (updateResultsPanel _ _ _) => inv_shown
  | |- invariant _ (updateLegendValues _) => inv_shown
  | |- invariant _ (bind _ _) => apply inv_bind; [|intros ?]
  | |- invariant _ (ret _) => apply inv_ret
  | |- invariant _ (throw _) => apply inv_throw
  | |- invariant _ (try_catch _ _) => apply inv_try_catch; [|intros ?]
  | |- invariant _ (try_finally _ _) =>
      apply inv_try_finally; [|intros; now apply quiet_setTimeout]
  | |- invariant _ (when _ _) => apply inv_when
  | |- invariant _ (read _) => apply inv_read
  | |- invariant _ (modify _) => inv_modify_tac
  | |- invariant _ (showNotification _ _) => apply quiet_showNotification
  | |- invariant _ (Date_toISOString _) => apply quiet_Date_toISOString
  | |- invariant _ (random_fixed _ _ _ _) => apply quiet_random_fixed
  | |- invariant _ (random_floor _ _ _) => apply quiet_random_floor
  | |- invariant _ (selected_file _ _) => apply quiet_selected_file
  | |- invariant _ (current_image _ _) => apply quiet_current_image
  | |- invariant _ (place_markers _ _) => apply quiet_place_markers
  | |- invariant _ (push_artifacts _ _ _ _) => apply quiet_push_artifacts
  | |- invariant _ (match ?x with _ => _ end) => destruct x
  end.

Lemma quiet_displayImage (imgUrl : string) :
  invariant (quiet R) (displayImage imgUrl).
Proof. unfold displayImage. repeat quiet_step. Qed.

Lemma quiet_displayDetectionResult (results : Js.Val) :
  invariant (quiet R) (displayDetectionResult env results).
Proof. unfold displayDetectionResult. repeat quiet_step. Qed.

Lemma quiet_uploadOffline : invariant (quiet R) (uploadOffline env).
Proof.
  unfold uploadOffline, displayLocalImage. unfold_dom.
  repeat quiet_step. apply quiet_displayImage.
Qed.

Lemma quiet_runOfflineSegmentation :
  invariant (quiet R) (runOfflineSegmentation env).
Proof. unfold runOfflineSegmentation. unfold_dom. repeat quiet_step. Qed.

Lemma quiet_runOfflineDetection :
  invariant (quiet R) (runOfflineDetection env).
Proof.
  unfold runOfflineDetection. unfold_dom.
  repeat quiet_step. apply quiet_displayDetectionResult.
Qed.

Lemma quiet_generateCombinedStatistics :
  invariant (quiet R) (generateCombinedStatistics env).
Proof. intros w H. rewrite generateCombinedStatistics_exec. exact H. Qed.

Lemma quiet_clearResults : invariant (quiet R) (clearResults env).
Proof. unfold clearResults. repeat quiet_step. Qed.

Lemma quiet_uploadImage : invariant (quiet R) (uploadImage env).
Proof.
  unfold uploadImage. unfold_dom.
  repeat quiet_step; apply quiet_uploadOffline.
Qed.

Lemma quiet_runSegmentation : invariant (quiet R) (runSegmentation env).
Proof.
  unfold runSegmentation. unfold_dom.
  repeat quiet_step; apply quiet_runOfflineSegmentation.
Qed.

Lemma quiet_detectArtifacts : invariant (quiet R) (detectArtifacts env).
Proof.
  unfold detectArtifacts. unfold_dom.
  repeat quiet_step; apply quiet_runOfflineDetection.
Qed.

Lemma quiet_runAllProcessing : invariant (quiet R) (runAllProcessing env).
Proof.
  unfold runAllProcessing, runAll_enter, runAll_segmentation, runAll_detection,
    runAll_analysis.
  unfold_dom.
  repeat quiet_step;
    first [ apply quiet_runOfflineSegmentation | apply quiet_runOfflineDetection
          | apply quiet_generateCombinedStatistics ].
Qed.

End Quiet.

(* ================================================================== *)
(** ** Offline mode *)

Lemma quiet_fire (R : list Request) (n : nat) (w : World) :
  quiet R w -> quiet R (fire n w).
Proof.
  intros [H1 H2]. unfold fire. destruct (nth_error (timers w) n) as [t|].
  - split; [|exact H2]. simpl. destruct t; simpl; try exact H1.
    destruct (runningAllProcess (app w)); simpl; exact H1.
  - now split.
Qed.

Lemma quiet_handle (env : Env) (R : list Request) (e : Event) (w : World) :
  is_probe e = false -> quiet R w -> quiet R (handle env e w).
Proof.
  intros He H. destruct e; cbn [handle is_probe] in *; try discriminate;
    try exact H.
  - destruct (selectedFile (app w)); [now apply quiet_uploadImage | exact H].
  - now apply quiet_runSegmentation.
  - now apply quiet_detectArtifacts.
  - now apply quiet_runAllProcessing.
  - now apply quiet_fire.
  - unfold exec, fitToBounds, bind, read.
    now destruct (imageOverlay (app w)), (imageBounds (app w)).
Qed.

Lemma quiet_run (env : Env) (R : list Request) (events : list Event) :
  forall w,
    forallb (fun e => negb (is_probe e)) events = true ->
    quiet R w -> quiet R (run env events w).
Proof.
  induction events as [|e rest IH]; intros w Hall H; simpl in *.
  - exact H.
  - apply andb_prop in Hall as [He Hrest].
    apply IH; [exact Hrest|].
    apply quiet_handle; [|exact H].
    now destruct (is_probe e).
Qed.

(** C4. A stage started in Offline mode never goes to the remote service:
    the choice between the two implementations falls on the local one, and
    [uploadImage], [runSegmentation], [detectArtifacts] and the complete run
    end with the log of requests exactly as it was. *)
Theorem offline_stage_issues_no_request (env : Env) (w : World) :
  isOnline (app w) = false ->
  outcome (use_backend env) w = Normal false
  /\ requests (exec (uploadImage env) w) = requests w
  /\ requests (exec (runSegmentation env) w) = requests w
  /\ requests (exec (detectArtifacts env) w) = requests w
  /\ requests (exec (runAllProcessing env) w) = requests w.
Proof.
  intro H.
  assert (Q : quiet (requests w) w) by now split.
  split.
  - unfold outcome, use_backend, bind, read. simpl. now rewrite H.
  - repeat split.
    + apply (quiet_uploadImage env _ w Q).
    + apply (quiet_runSegmentation env _ w Q).
    + apply (quiet_detectArtifacts env _ w Q).
    + apply (quiet_runAllProcessing env _ w Q).
Qed.

Lemma offline_stage_issues_no_request_witness :
  requests (exec (runSegmentation unreachable_env) offline_session)
  = requests offline_session.
Proof.
  apply (offline_stage_issues_no_request unreachable_env offline_session).
  reflexivity.
Defined.

(** C8. Only the probe sets the mode to Online: an event other than the
    probe that starts in Offline mode ends in Offline mode, so does any
    sequence of such events, and setting the flag to Offline when it is
    Offline already changes nothing. *)
Theorem mode_upgraded_by_probe_only (env : Env) :
  (forall events w,
      forallb (fun e => negb (is_probe e)) events = true ->
      isOnline (app w) = false ->
      isOnline (app (run env events w)) = false)
  /\ (forall e w,
        isOnline (app w) = false ->
        isOnline (app (handle env e w)) = true -> e = Probe)
  /\ (forall m, isOnline m = false -> set_isOnline false m = m).
Proof.
  split; [|split].
  - intros events w Hall H.
    apply (quiet_run env (requests w) events w Hall). now split.
  - intros e w H Hon.
    destruct (is_probe e) eqn:E; [now destruct e|].
    destruct (quiet_handle env (requests w) e w E) as [H' _]; [now split|].
    congruence.
  - intros m H. destruct m; simpl in *. subst. reflexivity.
Qed.

Lemma mode_upgraded_by_probe_only_witness :
  isOnline (app (run unreachable_env
                   [FileChosen site2; UploadClicked; SegmentClicked; TimerDue 0;
                    DetectClicked; ClearClicked]
                   offline_session)) = false
  /\ set_isOnline false (app offline_session) = app offline_session.
Proof.
  destruct (mode_upgraded_by_probe_only unreachable_env) as (Hrun & _ & Hset).
  split.
  - apply Hrun; reflexivity.
  - apply Hset. reflexivity.
Defined.

(* ================================================================== *)
(** ** The probe *)

(** C6, as the code has it. [checkBackendStatus] never throws; it leaves
    the mode Online exactly when the request got a 2xx response whose body
    is JSON, and Offline after a network error, any other status, or a 2xx
    response whose body does not parse. *)
Theorem probe_never_throws (env : Env) (w : World) :
  outcome (checkBackendStatus env) w = Normal tt
  /\ isOnline (app (exec (checkBackendStatus env) w))
     = reachable (fetch env (List.length (requests w)) (probe_request w)).
Proof.
  unfold outcome, exec, checkBackendStatus, try_catch, bind, read, await_fetch,
    probe_request. simpl.
  destruct (fetch env _ _) as [e|[|] s [v|e]]; simpl; split; reflexivity.
Qed.

(** C6 fails as stated: a response with status 200 whose body is not JSON
    is a success response, and the probe leaves the mode Offline. *)
Lemma probe_success_response_offline :
  let o := Response true 200 (inr "Unexpected token < in JSON at position 0") in
  fetch (answering_env o) 0 (probe_request (boot true)) = o
  /\ isOnline (app (exec (checkBackendStatus (answering_env o)) (boot true)))
     = false.
Proof. split; reflexivity. Qed.

(* ================================================================== *)
(** ** Upload *)

Ltac run_method :=
  unfold outcome, exec, try_finally, try_catch, bind, read, modify, when,
    ret, throw, showNotification, setTimeout; simpl.

(** Looking up a property of an object literal. *)
Ltac read_fields :=
  cbv beta iota zeta fix delta
    [Js.opt_get Js.lookup String.eqb Ascii.eqb Bool.eqb].

(** The same, reducing only the plumbing of worlds and fields. *)
Ltac run_plumbing :=
  unfold outcome, exec, try_finally, try_catch, bind, read, modify, when,
    ret, throw, showNotification, setTimeout;
  cbv beta iota;
  cbn [fst snd negb app requests notifications draws clock_reads timers with_app
       currentImage selectedFile processingResults imageOverlay artifactsLayer
       segmentationLayer isOnline baseUrl imageBounds isProcessing isUploading
       runningAllProcess segmentation detection statistics
       set_currentImage set_selectedFile set_processingResults set_imageOverlay
       set_artifactsLayer set_segmentationLayer set_isOnline set_imageBounds
       set_isProcessing set_isUploading set_runningAllProcess
       set_segmentation set_detection set_statistics
       store_segmentation store_detection store_statistics].


(* ================================================================== *)
(** ** The busy check during a complete run *)

(** Once [runAllProcessing] has passed its checks, both flags are set. *)
Lemma runAll_enter_takes_flags (w : World) :
  outcome runAll_enter w = Normal true ->
  isProcessing (app (exec runAll_enter w)) = true
  /\ runningAllProcess (app (exec runAll_enter w)) = true.
Proof.
  unfold runAll_enter. run_method.
  destruct (currentImage (app w)); simpl; [|discriminate].
  destruct (isProcessing (app w)); simpl; [discriminate|]. now split.
Qed.

(** With the run-all flag set, the busy check of a single stage lets every
    call through. *)
Lemma busy_check_open_during_runAll (m : Mapper) :
  runningAllProcess m = true ->
  isProcessing m && negb (runningAllProcess m) = false.
Proof. intro H. rewrite H. apply andb_false_r. Qed.

(** C3, on the code. A complete run has passed its checks and waits in its
    segmentation step; [runSegmentation] and [detectArtifacts], called from
    outside at that moment, raise no busy warning, run, and write their
    slots of the results. *)
Theorem single_stage_runs_during_run_all :
  let during := exec runAll_enter offline_session in
  let seg := exec (runSegmentation unreachable_env) during in
  let det := exec (detectArtifacts unreachable_env) during in
  outcome runAll_enter offline_session = Normal true
  /\ isProcessing (app during) = true
  /\ runningAllProcess (app during) = true
  /\ seg_of during = Js.Null /\ det_of during = Js.Null
  /\ ~ In busy_warning (notifications seg)
  /\ check_segmentation (seg_of seg) = true
  /\ ~ In busy_warning (notifications det)
  /\ check_detection (det_of det) = true.
Proof.
  vm_compute. repeat split; try reflexivity;
    intro H; repeat (destruct H as [H|H]; [discriminate H|]); exact H.
Qed.

(* ================================================================== *)
(** ** A remote failure inside the complete run *)

(** C5, on the code.  In Online mode with an image on the server, the
    segmentation request is answered with status 500.  Called as a single
    stage, [runSegmentation] falls back: the mode is Offline afterwards,
    the slot holds a synthetic result within its bounds and no error is
    reported.  [runAllProcessing], in the same state and with the same
    answer, does not: it reports the error, the mode is still Online and no
    segmentation result is stored. *)
Theorem run_all_surfaces_remote_failure :
  let request := stage_request endpoint_segment (app online_session) server_image in
  let single := exec (runSegmentation failing_stage_env) online_session in
  let after := exec (runAllProcessing failing_stage_env) online_session in
  stage_ready online_session server_image
  /\ remote_failure (fetch failing_stage_env (List.length (requests online_session))
                       request) = true
  /\ (isOnline (app single) = false
      /\ check_segmentation (seg_of single) = true
      /\ no_error_notes (notifications single) = true)
  /\ (requests after = (requests online_session ++ [request])%list
      /\ isOnline (app after) = true
      /\ seg_of after = Js.Null
      /\ In ("Processing failed: Segmentation failed: 500", "error")
           (notifications after)).
Proof.
  vm_compute. repeat split. right. right. right. left. reflexivity.
Qed.

(* ================================================================== *)
(** ** The synthetic results *)

Section Numbers.

Local Open Scope Q_scope.

Lemma floor_between (x : Q) (a b : Z) :
  inject_Z a <= x -> x < inject_Z (b + 1) -> (a <= Qfloor x <= b)%Z.
Proof.
  intros Ha Hb. split.
  - rewrite <- (Qfloor_Z a). now apply Qfloor_resp_le.
  - apply Z.lt_succ_r. rewrite Zlt_Qlt.
    apply Qle_lt_trans with x; [apply Qfloor_le | exact Hb].
Qed.

Lemma pow10_pos (f : nat) : (0 < pow10 f)%Z.
Proof. unfold pow10. apply Z.pow_pos_nonneg; lia. Qed.

(** A number between two bounds that are decimals of [f] digits stays
    between them through [toFixed(f)] and [parseFloat]. *)
Lemma in_range_fixed (f : nat) (x lo hi : Q) (a b : Z) :
  lo * inject_Z (pow10 f) == inject_Z a ->
  hi * inject_Z (pow10 f) == inject_Z b ->
  0 <= x -> lo <= x -> x <= hi ->
  in_range lo hi (num (parseFloat (toFixed f x))) = true.
Proof.
  intros Ea Eb H0 Hlo Hhi.
  pose proof (pow10_pos f) as Hp.
  assert (HP : 0 < inject_Z (pow10 f)) by (now rewrite <- (Zlt_Qlt 0)).
  unfold toFixed. destruct (Qlt_le_dec x 0) as [Hneg|_].
  { exfalso. apply (Qlt_not_le _ _ Hneg H0). }
  set (n := Qfloor (x * inject_Z (pow10 f) + (1 # 2))).
  assert (Hn : (a <= n <= b)%Z).
  { apply floor_between.
    - rewrite <- Ea.
      apply Qle_trans with (x * inject_Z (pow10 f)).
      + apply Qmult_le_compat_r; [exact Hlo | now apply Qlt_le_weak].
      + rewrite <- (Qplus_0_r (x * inject_Z (pow10 f))) at 1.
        apply Qplus_le_r. discriminate.
    - rewrite inject_Z_plus, <- Eb.
      apply Qle_lt_trans with (hi * inject_Z (pow10 f) + (1 # 2)).
      + apply Qplus_le_l. apply Qmult_le_compat_r; [exact Hhi | now apply Qlt_le_weak].
      + apply Qplus_lt_r. reflexivity. }
  unfold parseFloat, num, in_range. simpl.
  assert (Ev : Qred (n # Z.to_pos (pow10 f)) == inject_Z n / inject_Z (pow10 f)).
  { rewrite Qred_correct, Qmake_Qdiv, Z2Pos.id by exact Hp. reflexivity. }
  apply andb_true_intro. split; apply Qle_bool_iff; rewrite Ev.
  - apply Qle_shift_div_l; [exact HP|]. rewrite Ea, <- Zle_Qle. apply Hn.
  - apply Qle_shift_div_r; [exact HP|]. rewrite Eb, <- Zle_Qle. apply Hn.
Qed.

(** [Math.floor(r * span)] of a draw [r] is one of [0 .. span - 1]. *)
Lemma floor_of_draw (r : Q) (span : Z) :
  0 <= r -> r < 1 -> (0 < span)%Z ->
  (0 <= Math_floor (r * inject_Z span + 0) <= span - 1)%Z.
Proof.
  intros H0 H1 Hs. unfold Math_floor.
  assert (HS : 0 < inject_Z span) by (now rewrite <- (Zlt_Qlt 0)).
  apply floor_between.
  - rewrite Qplus_0_r. apply Qmult_le_0_compat; [exact H0 | now apply Qlt_le_weak].
  - rewrite Qplus_0_r. replace (span - 1 + 1)%Z with span by lia.
    rewrite <- (Qmult_1_l (inject_Z span)) at 2.
    now apply Qmult_lt_compat_r.
Qed.

(** A draw scaled into [[low, low + span)]. *)
Lemma draw_scaled (r span low : Q) :
  0 <= r -> r < 1 -> 0 <= span -> 0 <= low ->
  0 <= r * span + low /\ low <= r * span + low /\ r * span + low <= span + low.
Proof.
  intros H0 H1 Hs Hl.
  assert (0 <= r * span) by now apply Qmult_le_0_compat.
  assert (r * span <= span).
  { rewrite <- (Qmult_1_l span) at 2.
    apply Qmult_le_compat_r; [now apply Qlt_le_weak | exact Hs]. }
  repeat split; lra.
Qed.

End Numbers.

Ltac fixed_in_range Hr i a b :=
  let H0 := fresh in let H1 := fresh in
  destruct (Hr i) as [H0 H1];
  match goal with
  | |- in_range ?lo ?hi (num (parseFloat (toFixed ?f (_ * ?span + ?low)))) = true =>
      destruct (draw_scaled _ span low H0 H1) as (? & ? & ?);
      [discriminate | discriminate |];
      apply (in_range_fixed f _ lo hi a b);
      [now vm_compute | now vm_compute | assumption | assumption
      | first [assumption | lra]]
  end.

Lemma check_segmentation_intro (v : Js.Val) :
  in_range 20 60 (Js.opt_get v "ruins_percentage") = true ->
  in_range 10 40 (Js.opt_get v "vegetation_percentage") = true ->
  in_range 1 6 (Js.opt_get v "water_percentage") = true ->
  is_number (Js.opt_get v "pixels_analyzed") = true ->
  is_true (Js.opt_get v "success") = true ->
  check_segmentation v = true.
Proof.
  intros H1 H2 H3 H4 H5. unfold check_segmentation.
  now rewrite H1, H2, H3, H4, H5.
Qed.

Lemma artifact_type_in_set (z : Z) :
  (0 <= z <= 7)%Z -> is_artifact_type (artifact_type z) = true.
Proof.
  intro H.
  assert (E : z = 0%Z \/ z = 1%Z \/ z = 2%Z \/ z = 3%Z \/ z = 4%Z \/ z = 5%Z
              \/ z = 6%Z \/ z = 7%Z) by lia.
  repeat (destruct E as [E|E]; [subst z; reflexivity|]). subst z. reflexivity.
Qed.

Lemma check_artifact_intro (a : Js.Val) :
  is_number (Js.opt_get a "id") = true ->
  is_artifact_type (Js.opt_get a "type") = true ->
  in_range (7 # 10) 1 (Js.opt_get a "confidence") = true ->
  is_number (Js.opt_get a "area") = true ->
  numbers 2 (Js.opt_get a "center") = true ->
  numbers 4 (Js.opt_get a "bbox") = true ->
  check_artifact a = true.
Proof.
  intros H1 H2 H3 H4 H5 H6. unfold check_artifact.
  now rewrite H1, H2, H3, H4, H5, H6.
Qed.





Lemma check_artifact_showable (a : Js.Val) :
  check_artifact a = true -> showable_artifact a = true.
Proof.
  unfold check_artifact, showable_artifact. intro H.
  apply andb_true_iff in H as [H _]. apply andb_true_iff in H as [H _].
  apply andb_true_iff in H as [H Ha]. apply andb_true_iff in H as [H _].
  apply andb_true_iff in H as [Hi Ht].
  destruct a; try discriminate Hi;
    destruct (Js.opt_get _ "area"); try discriminate Ha;
    destruct (Js.opt_get _ "type"); try discriminate Ht; reflexivity.
Qed.

Lemma forallb_weaken {A} (p q : A -> bool) (l : list A) :
  (forall x, p x = true -> q x = true) ->
  forallb p l = true -> forallb q l = true.
Proof.
  intros Hpq. induction l as [|x l IH]; [reflexivity|].
  cbn [forallb]. intro H. apply andb_true_iff in H as [Hx Hl].
  now rewrite (Hpq x Hx), IH.
Qed.

Lemma synthetic_detection_showable (items : list Js.Val) :
  forallb check_artifact items = true ->
  showable (synthetic_detection items) = true.
Proof.
  intro H. unfold showable, synthetic_detection. cbn.
  exact (forallb_weaken _ _ items check_artifact_showable H).
Qed.

Lemma silent_runs {A} (m : Async A) (w : World) :
  silent m -> m w = (outcome m w, w).
Proof.
  intro H. specialize (H w). unfold outcome, exec in *.
  destruct (m w) as [c w']. cbn [fst snd] in *. now subst w'.
Qed.

Lemma Math_random_runs (env : Env) (w : World) :
  Math_random env w = (Normal (random env (draws w)), advance 1 w).
Proof. reflexivity. Qed.

(* ------------------------------------------------------------------ *)
(** *** Markers *)

Section Markers.
Local Open Scope Q_scope.

Lemma marker_within (r1 r2 : Q) (a : Js.Val) :
  0 <= r1 -> r1 < 1 -> 0 <= r2 -> r2 < 1 ->
  within image_bounds
    (mkMarker ((299765 # 10000) + (r1 - (1 # 2)) * (1 # 100))
              ((311325 # 10000) + (r2 - (1 # 2)) * (1 # 100)) a) = true.
Proof.
  intros H1 H2 H3 H4. unfold within, image_bounds. cbn [lat lng].
  rewrite !andb_true_iff, !Qle_bool_iff. repeat split; lra.
Qed.

End Markers.

Lemma layer_set (layer : list Marker) (w : World) :
  artifactsLayer (app w) = Some layer ->
  with_app (set_artifactsLayer (Some layer)) (advance 0 w) = w.
Proof.
  destruct w as [m r n d c t]. destruct m. cbn. intro H. now subst.
Qed.

(** [forEach] puts one marker per artifact behind those of the layer, in
    the order of the artifacts, and every one of them on the image. *)
Lemma place_markers_within (env : Env) (items : list Js.Val) :
  random_in_range env ->
  forallb markable_artifact items = true ->
  forall w layer,
  artifactsLayer (app w) = Some layer ->
  exists markers,
    place_markers env items w
    = (Normal tt,
       with_app (set_artifactsLayer (Some (layer ++ markers)%list))
         (advance (2 * List.length items) w))
    /\ map artifact markers = items
    /\ forallb (within image_bounds) markers = true.
Proof.
  intro Hr. induction items as [|a rest IH]; intros Hall w layer Hl.
  - exists []. rewrite app_nil_r. cbn [place_markers List.length Nat.mul].
    now rewrite layer_set.
  - cbn [forallb] in Hall. apply andb_true_iff in Hall as [Ha Hrest].
    unfold markable_artifact in Ha. apply andb_true_iff in Ha as [Hn Hf].
    apply negb_true_iff in Hn.
    set (marker := mkMarker
           ((299765 # 10000) + (random env (draws w) - (1 # 2)) * (1 # 100))
           ((311325 # 10000) + (random env (S (draws w)) - (1 # 2)) * (1 # 100))
           a).
    destruct (IH Hrest (with_app (add_marker marker) (advance 2 w))
                (layer ++ [marker])%list)
      as (markers & Hm & Hmap & Hin).
    { unfold with_app, advance, add_marker. cbn. rewrite Hl. reflexivity. }
    exists (marker :: markers). split; [|split].
    + cbn [place_markers].
      erewrite bind_runs by apply Math_random_runs.
      erewrite bind_runs by apply Math_random_runs.
      erewrite bind_runs by (apply member_runs; exact Hn).
      erewrite bind_runs by apply modify_runs.
      erewrite bind_runs by (apply opt_toFixed_runs; exact Hf).
      etransitivity; [exact Hm|].
      rewrite <- app_assoc. cbn [List.app List.length].
      unfold with_app, advance, add_marker. cbn. do 2 f_equal. lia.
    + cbn [map artifact]. now rewrite Hmap.
    + cbn [forallb]. rewrite Hin, andb_true_r.
      destruct (Hr (draws w)) as [H1 H2].
      destruct (Hr (S (draws w))) as [H3 H4].
      now apply marker_within.
Qed.

Lemma displayDetectionResult_runs (env : Env) (results : Js.Val) (w : World) :
  random_in_range env ->
  Js.nullish results = false ->
  markable results = true ->
  exists markers,
    displayDetectionResult env results w
    = (Normal tt,
       with_app (set_artifactsLayer (Some markers))
         (advance (2 * List.length (items_of results)) w))
    /\ map artifact markers = items_of results
    /\ forallb (within image_bounds) markers = true.
Proof.
  intros Hr Hn Hm. unfold displayDetectionResult, items_of, markable in *.
  erewrite bind_runs by apply modify_runs.
  erewrite bind_runs by (apply member_runs; exact Hn).
  destruct (Js.opt_get results "artifacts"); try discriminate Hm;
    try (exists []; destruct w; repeat split; fail).
  destruct (place_markers_within env items Hr Hm
              (with_app (set_artifactsLayer (Some [])) w) [] eq_refl)
    as (markers & Hp & Ha & Hb).
  exists markers. split; [|now split].
  etransitivity; [exact Hp|]. reflexivity.
Qed.

(* ------------------------------------------------------------------ *)
(** *** The two synthetic stages *)

Section Whole.
Local Open Scope Q_scope.

Lemma whole_numZ (z lo hi : Z) :
  (lo <= z <= hi)%Z -> whole lo hi (numZ z) = true.
Proof.
  intros [Hlo Hhi]. unfold whole, numZ, num, Q2Qc. cbn [this].
  assert (E : Qfloor (Qred (inject_Z z)) = z)
    by (rewrite (Qfloor_comp _ _ (Qred_correct _)); apply Qfloor_Z).
  rewrite E.
  assert (Q : Qeq_bool (Qred (inject_Z z)) (inject_Z z) = true)
    by (apply Qeq_bool_iff, Qred_correct).
  rewrite Q. cbn [andb].
  apply andb_true_intro. split; now apply Z.leb_le.
Qed.

Lemma floor_of_draw_from (r : Q) (span low : Z) :
  0 <= r -> r < 1 -> (0 < span)%Z ->
  (low <= Math_floor (r * inject_Z span + inject_Z low) <= low + span - 1)%Z.
Proof.
  intros H0 H1 Hs. unfold Math_floor.
  assert (HS : 0 < inject_Z span) by (now rewrite <- (Zlt_Qlt 0)).
  assert (Ha : 0 <= r * inject_Z span)
    by (apply Qmult_le_0_compat; [exact H0 | now apply Qlt_le_weak]).
  assert (Hb : r * inject_Z span < inject_Z span).
  { rewrite <- (Qmult_1_l (inject_Z span)) at 2.
    now apply Qmult_lt_compat_r. }
  apply floor_between.
  - lra.
  - replace (low + span - 1 + 1)%Z with (span + low)%Z by lia.
    rewrite inject_Z_plus. lra.
Qed.

End Whole.

Lemma make_artifact_shaped (env : Env) (i : nat) (w : World) :
  random_in_range env ->
  exists a,
    make_artifact env (Z.of_nat i) w = (Normal a, advance 9 w)
    /\ check_artifact a = true
    /\ shaped i a = true.
Proof.
  intro Hr.
  unfold make_artifact. do 9 step.
  eexists. split; [destruct w; reflexivity|].
  cbn [draws advance Nat.add].
  split.
  { apply check_artifact_intro; read_fields; try reflexivity.
    - apply artifact_type_in_set.
      destruct (Hr (draws w)) as [H0 H1].
      apply (floor_of_draw _ 8 H0 H1). reflexivity.
    - fixed_in_range Hr (S (draws w)) 700%Z 1000%Z. }
  pose proof (floor_of_draw_from _ 2000 500
                (proj1 (Hr (2 + draws w)%nat)) (proj2 (Hr (2 + draws w)%nat)) eq_refl).
  pose proof (floor_of_draw_from _ 1000 0
                (proj1 (Hr (3 + draws w)%nat)) (proj2 (Hr (3 + draws w)%nat)) eq_refl).
  pose proof (floor_of_draw_from _ 1000 0
                (proj1 (Hr (4 + draws w)%nat)) (proj2 (Hr (4 + draws w)%nat)) eq_refl).
  pose proof (floor_of_draw_from _ 800 0
                (proj1 (Hr (5 + draws w)%nat)) (proj2 (Hr (5 + draws w)%nat)) eq_refl).
  pose proof (floor_of_draw_from _ 800 0
                (proj1 (Hr (6 + draws w)%nat)) (proj2 (Hr (6 + draws w)%nat)) eq_refl).
  pose proof (floor_of_draw_from _ 200 50
                (proj1 (Hr (7 + draws w)%nat)) (proj2 (Hr (7 + draws w)%nat)) eq_refl).
  pose proof (floor_of_draw_from _ 200 50
                (proj1 (Hr (8 + draws w)%nat)) (proj2 (Hr (8 + draws w)%nat)) eq_refl).
  cbn [Nat.add] in *. unfold inject_Z in *.
  unfold shaped. read_fields.
  rewrite !whole_numZ by lia. reflexivity.
Qed.

Lemma push_artifacts_shaped (env : Env) (todo : nat) :
  random_in_range env ->
  forall i artifacts w,
  exists more,
    push_artifacts env todo (Z.of_nat i) artifacts w
    = (Normal (artifacts ++ more)%list, advance (9 * todo) w)
    /\ List.length more = todo
    /\ forallb check_artifact more = true
    /\ numbered i more = true.
Proof.
  intro Hr. induction todo as [|todo IH]; intros i artifacts w.
  - exists []. simpl. rewrite app_nil_r. destruct w. repeat split.
  - destruct (make_artifact_shaped env i w Hr) as (a & Ha & Hc & Hs).
    destruct (IH (S i) (artifacts ++ [a])%list (advance 9 w))
      as (more & Hm & Hl & Hall & Hn).
    exists (a :: more). split; [|split; [|split]].
    + simpl push_artifacts. unfold bind. rewrite Ha.
      replace (Z.of_nat i + 1)%Z with (Z.of_nat (S i)) by lia.
      rewrite Hm, <- app_assoc. simpl. f_equal.
      unfold advance. simpl. f_equal. lia.
    + simpl. now rewrite Hl.
    + simpl. now rewrite Hc, Hall.
    + cbn [numbered]. now rewrite Hs, Hn.
Qed.

(** [runOfflineSegmentation] stores a result within bounds, raises its
    notification unless a complete run is under way, and ends in the
    legend. *)
Lemma runOfflineSegmentation_stores (env : Env) (w : World) :
  random_in_range env ->
  exists v,
    runOfflineSegmentation env w
    = updateLegendValues env
        ((if runningAllProcess (app w) then fun x => x
          else noted "Site features segmented (offline mode)" "success")
           (with_app (store_segmentation v) (advance 4 w)))
    /\ check_segmentation v = true
    /\ whole 1000000 1499999 (Js.opt_get v "pixels_analyzed") = true.
Proof.
  intro Hr. unfold runOfflineSegmentation. unfold_dom. repeat step.
  cbn [app with_app advance runningAllProcess store_segmentation
       set_processingResults].
  eexists. split; [|split].
  - destruct (runningAllProcess (app w)); cbn [negb when]; repeat step;
      reflexivity.
  - apply check_segmentation_intro; read_fields; try reflexivity;
      [ fixed_in_range Hr (draws w) 2000%Z 6000%Z
      | fixed_in_range Hr (S (draws w)) 1000%Z 4000%Z
      | fixed_in_range Hr (S (S (draws w))) 100%Z 600%Z ].
  - read_fields. apply whole_numZ.
    pose proof (floor_of_draw _ 500000
                  (proj1 (Hr (3 + draws w)%nat)) (proj2 (Hr (3 + draws w)%nat))
                  eq_refl) as H.
    cbn [Nat.add] in H. unfold inject_Z in H. cbn [draws advance Nat.add]. lia.
Qed.


(** [runOfflineDetection] stores a result within bounds, raises its
    notification unless a complete run is under way, puts the markers on
    the map and ends in the legend. *)
Lemma runOfflineDetection_stores (env : Env) (w : World) :
  random_in_range env ->
  exists items markers,
    runOfflineDetection env w
    = updateLegendValues env
        (with_app (set_artifactsLayer (Some markers))
           (advance (2 * List.length items)
              ((if runningAllProcess (app w) then fun x => x
                else noted ("Found "
                              ++ str env (numZ (Z.of_nat (List.length items)))
                              ++ " artifacts (offline mode)") "success")
                 (with_app (store_detection (synthetic_detection items))
                    (advance (9 * List.length items) (advance 1 w))))))
    /\ (3 <= List.length items <= 14)%nat
    /\ forallb check_artifact items = true
    /\ numbered 0 items = true
    /\ map artifact markers = items
    /\ forallb (within image_bounds) markers = true.
Proof.
  intro Hr.
  destruct (Hr (draws w)) as [H0 H1].
  pose proof (floor_of_draw _ 12 H0 H1 eq_refl) as Hn.
  unfold runOfflineDetection. unfold_dom. repeat step.
  match goal with |- context [bind (push_artifacts env ?n ?i ?acc) _ ?w1] =>
    destruct (push_artifacts_shaped env n Hr 0%nat acc w1)
      as (more & Hm & Hl & Hall & Hnum)
  end.
  change (Z.of_nat 0) with 0%Z in Hm.
  erewrite bind_runs by exact Hm.
  assert (Hlen : (3 <= List.length more <= 14)%nat).
  { rewrite Hl. cbn [draws advance Nat.add] in *.
    change (inject_Z 12) with (12 : Q) in Hn. lia. }
  cbn [List.app] in *. rewrite <- Hl.
  repeat step.
  cbn [app with_app advance runningAllProcess store_detection
       set_processingResults].
  fold (synthetic_detection more).
  pose proof (synthetic_detection_showable more Hall) as Hshow.
  match goal with |- context [bind (when _ _) _ ?W] => set (w2 := W) end.
  destruct (runningAllProcess (app w)); cbn [negb when].
  - destruct (displayDetectionResult_runs env (synthetic_detection more) w2 Hr
                eq_refl (showable_markable _ Hshow))
      as (markers & Hd & Hmap & Hin).
    exists more, markers. split; [|now repeat split].
    repeat step. erewrite bind_runs by exact Hd.
    erewrite bind_runs by (apply panel_detection_runs; [reflexivity | exact Hshow]).
    reflexivity.
  - destruct (displayDetectionResult_runs env (synthetic_detection more)
                (noted ("Found "
                          ++ str env (numZ (Z.of_nat (List.length more)))
                          ++ " artifacts (offline mode)") "success" w2) Hr
                eq_refl (showable_markable _ Hshow))
      as (markers & Hd & Hmap & Hin).
    exists more, markers. split; [|now repeat split].
    unfold showNotification. repeat step.
    erewrite bind_runs by exact Hd.
    erewrite bind_runs by (apply panel_detection_runs; [reflexivity | exact Hshow]).
    reflexivity.
Qed.





(* ================================================================== *)
(** ** Fallback of a single stage *)

Lemma runBackendSegmentation_fails (env : Env) (w : World) (image : Image) :
  currentImage (app w) = Some image ->
  remote_failure (fetch env (List.length (requests w))
                    (stage_request endpoint_segment (app w) image)) = true ->
  exists e,
    runBackendSegmentation env w
    = (Throw e, sent (stage_request endpoint_segment (app w) image) w).
Proof.
  intros Hi Hf.
  unfold runBackendSegmentation, current_image, await_fetch, response_json, member.
  run_method. rewrite Hi. simpl.
  unfold stage_request in Hf.
  destruct (fetch env _ _) as [e|[|] s [v|e]]; simpl in *;
    try (eexists; reflexivity).
  destruct v; simpl in *; try (eexists; reflexivity).
  apply negb_true_iff in Hf. rewrite Hf. simpl. eexists; reflexivity.
Qed.


Lemma success_notes_no_error (notes : list (string * string)) :
  success_notes notes = true -> no_error_notes notes = true.
Proof.
  unfold success_notes, no_error_notes. intro H.
  rewrite forallb_forall in *. intros n Hn. specialize (H n Hn).
  apply String.eqb_eq in H. now rewrite H.
Qed.

Lemma use_backend_online (env : Env) (w : World) (image : Image) :
  isOnline (app w) = true ->
  currentImage (app w) = Some image ->
  Js.truthy (filename image) = true ->
  use_backend env w = (Normal true, w).
Proof.
  intros Ho Hi Hfn. unfold use_backend, current_image, bind, read, ret.
  cbn [app]. rewrite Ho, Hi, Hfn. reflexivity.
Qed.





(** In Online mode, a complete run whose segmentation request fails stops
    there: it reports an error and touches neither the mode nor the
    results. *)
Lemma runAllProcessing_aborts (env : Env) (w : World) (image : Image) :
  currentImage (app w) = Some image ->
  Js.truthy (filename image) = true ->
  isOnline (app w) = true ->
  isProcessing (app w) = false ->
  remote_failure (fetch env (List.length (requests w))
                    (stage_request endpoint_segment (app w) image)) = true ->
  exists e,
    outcome (runAllProcessing env) w = Normal tt
    /\ notifications (exec (runAllProcessing env) w)
       = (notifications w ++ [(("Processing failed: " ++ e)%string, "error")])%list
    /\ isOnline (app (exec (runAllProcessing env) w)) = true
    /\ processingResults (app (exec (runAllProcessing env) w))
       = processingResults (app w).
Proof.
  intros Hi Hfn Ho Hp Hf.
  set (w1 := with_app (set_runningAllProcess true)
               (with_app (set_isProcessing true) w)).
  assert (E1 : runAll_enter w = (Normal true, w1)).
  { unfold runAll_enter. erewrite bind_runs by reflexivity. rewrite Hi.
    erewrite bind_runs by reflexivity. rewrite Hp.
    now do 2 erewrite bind_runs by reflexivity. }
  destruct (runBackendSegmentation_fails env w1 image Hi Hf) as (e & He).
  exists e.
  assert (E : runAllProcessing env w
              = (Normal tt,
                 setTimeout RunAllDone
                   (noted ("Processing failed: " ++ e) "error"
                      (sent (stage_request endpoint_segment (app w1) image) w1)))).
  { unfold runAllProcessing. erewrite bind_runs by exact E1.
    unfold try_finally, try_catch, runAll_segmentation.
    unfold_dom. repeat step.
    erewrite bind_runs by exact (use_backend_online env w1 image Ho Hi Hfn).
    rewrite bind_bind. unfold bind at 1. rewrite He. reflexivity. }
  unfold outcome, exec. rewrite E. repeat split. exact Ho.
Qed.




(* ================================================================== *)
(** ** Calls that are turned away *)

(** X1. Without an uploaded image, [runSegmentation], [detectArtifacts] and
    [runAllProcessing] raise the warning to upload one first and do nothing
    else: no flag is taken, no request issued, no timer queued. *)
Theorem stage_without_image_only_warns (env : Env) (w : World) :
  currentImage (app w) = None ->
  runSegmentation env w = (Normal tt, noted "Please upload an image first" "warning" w)
  /\ detectArtifacts env w
     = (Normal tt, noted "Please upload an image first" "warning" w)
  /\ runAllProcessing env w
     = (Normal tt, noted "Please upload an image first" "warning" w).
Proof.
  intro H. unfold runSegmentation, detectArtifacts, runAllProcessing, runAll_enter.
  repeat split; repeat step; rewrite H; repeat step; reflexivity.
Qed.

Lemma stage_without_image_only_warns_witness :
  exec (runSegmentation unreachable_env) (boot true)
  = noted "Please upload an image first" "warning" (boot true).
Proof.
  destruct (stage_without_image_only_warns unreachable_env (boot true) eq_refl)
    as (H & _).
  unfold exec. now rewrite H.
Defined.

(** X2. While another process holds the busy flag, a complete run is turned
    away with the busy warning and changes nothing else; so is a single
    stage, unless the run-all flag is set. *)
Theorem busy_call_only_warns (env : Env) (w : World) (image : Image) :
  currentImage (app w) = Some image ->
  isProcessing (app w) = true ->
  runAllProcessing env w
  = (Normal tt, noted "Another process is currently running" "warning" w)
  /\ (runningAllProcess (app w) = false ->
      runSegmentation env w
      = (Normal tt, noted "Another process is currently running" "warning" w)
      /\ detectArtifacts env w
         = (Normal tt, noted "Another process is currently running" "warning" w)).
Proof.
  intros Hi Hp.
  unfold runSegmentation, detectArtifacts, runAllProcessing, runAll_enter.
  split; [|intro Hr; split]; repeat step; rewrite Hi; repeat step;
    rewrite Hp; try rewrite Hr; repeat step; reflexivity.
Qed.

(** X3. [uploadImage] without a selected file, or while an upload is in
    progress, raises its warning and changes nothing else. *)
Theorem upload_guards_only_warn (env : Env) (w : World) :
  (selectedFile (app w) = None ->
   uploadImage env w
   = (Normal tt, noted "Please select an image file first" "warning" w))
  /\ (selectedFile (app w) <> None -> isUploading (app w) = true ->
      uploadImage env w
      = (Normal tt, noted "Upload already in progress" "warning" w)).
Proof.
  unfold uploadImage. split.
  - intro H. repeat step. rewrite H. reflexivity.
  - intros H Hu. repeat step. destruct (selectedFile (app w)); [|easy].
    repeat step. rewrite Hu. reflexivity.
Qed.

(* ================================================================== *)
(** ** What every method keeps *)

Lemma append_empty (s : string) : (s ++ "")%string = s.
Proof. induction s as [|c s IH]; simpl; [reflexivity | now rewrite IH]. Qed.

Lemma backend_request_root (base method : string) (body : option Body) :
  backend_request base (mkRequest base method body) = true.
Proof.
  unfold backend_request. cbn [existsb url].
  now rewrite append_empty, String.eqb_refl.
Qed.

Lemma backend_request_path (base path method : string) (body : option Body) :
  In path [endpoint_upload; endpoint_segment; endpoint_detect] ->
  backend_request base (mkRequest (base ++ path) method body) = true.
Proof.
  intro H. unfold backend_request. apply existsb_exists. exists path. split.
  - now right.
  - apply String.eqb_refl.
Qed.

Lemma get_truthy (v x : Js.Val) (k : string) :
  Js.get v k = Some x -> Js.truthy x = true -> Js.truthy (Js.opt_get v k) = true.
Proof. destruct v; simpl; intros H E; inversion H; subst; exact E. Qed.

Lemma displayImage_runs (imgUrl : string) (w : World) :
  displayImage imgUrl w = (Normal tt, with_app (displayed imgUrl) w).
Proof. reflexivity. Qed.

Lemma make_artifact_frame (env : Env) (i : Z) (w : World) :
  exists a, make_artifact env i w = (Normal a, advance 9 w).
Proof.
  unfold make_artifact. do 9 step. eexists. destruct w; reflexivity.
Qed.

Lemma push_artifacts_frame (env : Env) (todo : nat) :
  forall i artifacts w,
  exists all,
    push_artifacts env todo i artifacts w = (Normal all, advance (9 * todo) w).
Proof.
  induction todo as [|todo IH]; intros i artifacts w.
  - exists artifacts. destruct w. reflexivity.
  - destruct (make_artifact_frame env i w) as (a & Ha).
    destruct (IH (i + 1)%Z (artifacts ++ [a])%list (advance 9 w)) as (all & Hall).
    exists all. simpl push_artifacts. unfold bind. rewrite Ha, Hall.
    f_equal. unfold advance. simpl. f_equal. lia.
Qed.

Section Kept.

Variable env : Env.
Variable I : World -> Prop.

Hypothesis K_noted :
  forall m t w, known_type t = true -> I w -> I (noted m t w).
Hypothesis K_advance : forall n w, I w -> I (advance n w).
Hypothesis K_ticked : forall w, I w -> I (ticked w).
Hypothesis K_sent :
  forall w0 w r,
    I w0 -> I w -> backend_request (baseUrl (app w0)) r = true -> I (sent r w).
Hypothesis K_timer : forall t w, I w -> I (setTimeout t w).
Hypothesis K_fire : forall n w, I w -> I (fire n w).
Hypothesis K_mode : forall b w, I w -> I (with_app (set_isOnline b) w).
Hypothesis K_image :
  forall image w, I w -> I (with_app (set_currentImage (Some image)) w).
Hypothesis K_display : forall imgUrl w, I w -> I (with_app (displayed imgUrl) w).
Hypothesis K_processing : forall b w, I w -> I (with_app (set_isProcessing b) w).
Hypothesis K_uploading : forall b w, I w -> I (with_app (set_isUploading b) w).
Hypothesis K_runningAll :
  forall b w, I w -> I (with_app (set_runningAllProcess b) w).
Hypothesis K_seg :
  forall v w,
    Js.truthy (Js.opt_get v "success") = true ->
    I w -> I (with_app (store_segmentation v) w).
Hypothesis K_det :
  forall v w,
    Js.truthy (Js.opt_get v "success") = true ->
    I w -> I (with_app (store_detection v) w).
Hypothesis K_stats : forall v w, I w -> I (with_app (store_statistics v) w).
Hypothesis K_layer : forall l w, I w -> I (with_app (set_artifactsLayer l) w).
Hypothesis K_clear :
  forall w,
    I w ->
    I (with_app (set_processingResults (mkResults Js.Null Js.Null Js.Null)) w).
Hypothesis K_select :
  forall file w, I w -> I (with_app (set_selectedFile (Some file)) w).

Lemma inv_bind_read {A B} (f : Mapper -> A) (k : A -> Async B) :
  (forall w0, I w0 -> invariant I (k (f (app w0)))) ->
  invariant I (bind (read f) k).
Proof. intros H w Hw. apply (H w Hw w Hw). Qed.

Lemma inv_bind_member {B} (v : Js.Val) (key : string) (k : Js.Val -> Async B) :
  (forall x, Js.get v key = Some x -> invariant I (k x)) ->
  invariant I (bind (member env v key) k).
Proof.
  intros H w Hw. unfold exec, bind, member.
  destruct (Js.get v key) as [x|] eqn:E; [apply (H x eq_refl w Hw) | exact Hw].
Qed.

Lemma kept_showNotification (message type : string) :
  known_type type = true -> invariant I (showNotification message type).
Proof. intros Ht w Hw. now apply K_noted. Qed.

Lemma kept_Math_random : invariant I (Math_random env).
Proof. intros w Hw. apply (K_advance 1 w Hw). Qed.

Lemma kept_Date_toISOString : invariant I (Date_toISOString env).
Proof. intros w Hw. now apply K_ticked. Qed.

Lemma kept_await_fetch (w0 : World) (r : Request) :
  I w0 -> backend_request (baseUrl (app w0)) r = true ->
  invariant I (await_fetch env r).
Proof.
  intros H0 Hr w Hw. unfold exec, await_fetch.
  destruct (fetch env _ r); apply (K_sent w0 w r H0 Hw Hr).
Qed.

Lemma kept_displayImage (imgUrl : string) : invariant I (displayImage imgUrl).
Proof. intros w Hw. unfold exec. rewrite displayImage_runs. now apply K_display. Qed.

Lemma K_marker (marker : Marker) (w : World) :
  I w -> I (with_app (add_marker marker) w).
Proof. intro Hw. unfold with_app, add_marker. now apply (K_layer _ w). Qed.

Lemma kept_place_markers (items : list Js.Val) :
  invariant I (place_markers env items).
Proof.
  induction items as [|a rest IH]; cbn [place_markers]; [apply inv_ret|].
  apply inv_bind; [apply kept_Math_random | intros r1].
  apply inv_bind; [apply kept_Math_random | intros r2].
  apply inv_bind_member. intros area _.
  apply inv_bind; [apply inv_modify; intros w Hw; now apply K_marker | intros _].
  apply inv_bind; [inv_shown | intros _]. exact IH.
Qed.

Lemma kept_push_artifacts (todo : nat) (i : Z) (artifacts : list Js.Val) :
  invariant I (push_artifacts env todo i artifacts).
Proof.
  intros w Hw. destruct (push_artifacts_frame env todo i artifacts w) as (all & H).
  unfold exec. rewrite H. now apply K_advance.
Qed.

Ltac path_side :=
  first [ apply backend_request_root
        | apply backend_request_path; simpl; tauto ].

Ltac kept_modify :=
  apply inv_modify; intros ? ?;
  first [ apply K_mode | apply K_image | apply K_processing | apply K_uploading
        | apply K_runningAll | apply K_stats | apply K_layer | apply K_clear
        | apply K_select
        | apply K_seg; [first [reflexivity | eapply get_truthy; eassumption]|]
        | apply K_det; [first [reflexivity | eapply get_truthy; eassumption]|] ];
  assumption.

Ltac kept_leaf :=
  lazymatch goal with
  | |- invariant _ (showNotification _ _) => apply kept_showNotification; reflexivity
  | |- invariant _ (Math_random _) => apply kept_Math_random
  | |- invariant _ (Date_toISOString _) => apply kept_Date_toISOString
  | |- invariant _ (displayImage _) => apply kept_displayImage
  | |- invariant _ (place_markers _ _) => apply kept_place_markers
  | |- invariant _ (push_artifacts _ _ _ _) => apply kept_push_artifacts
  | |- invariant _ (member _ _ _) => inv_shown
  | |- invariant _ (opt_toFixed _ _) => inv_shown
  | |- invariant _ (displaySegmentationResult _ _) => inv_shown
  | |- invariant _ (updateResultsPanel _ _ _) => inv_shown
  | |- invariant _ (updateLegendValues _) => inv_shown
  | H : I ?w0 |- invariant _ (await_fetch _ (mkRequest (baseUrl (app ?w0)) _ _)) =>
      apply (kept_await_fetch w0); [exact H | path_side]
  | H : I ?w0
    |- invariant _ (await_fetch _ (mkRequest (baseUrl (app ?w0) ++ _) _ _)) =>
      apply (kept_await_fetch w0); [exact H | path_side]
  | |- invariant _ (modify _) => kept_modify
  end.

Ltac kept_walk :=
  repeat lazymatch goal with
    | |- invariant _ (bind (read _) _) => apply inv_bind_read; intros ? ?
    | |- invariant _ (bind (member _ _ _) _) => apply inv_bind_member; intros ? ?
    | |- invariant _ (bind _ _) => apply inv_bind; [|intros ?]
    | |- invariant _ (ret _) => apply inv_ret
    | |- invariant _ (throw _) => apply inv_throw
    | |- invariant _ (try_catch _ _) => apply inv_try_catch; [|intros ?]
    | |- invariant _ (try_finally _ (setTimeout _)) =>
        apply inv_try_finally; [|intros ? ?; apply K_timer; assumption]
    | |- invariant _ (when _ _) => apply inv_when
    | |- invariant _ (read _) => apply inv_read
    | |- invariant _ (match ?x with _ => _ end) => destruct x eqn:?
    | |- invariant _ _ => kept_leaf
    end.

Ltac unfold_helpers :=
  unfold use_backend, make_artifact, displayLocalImage;
  unfold selected_file, current_image, response_json, random_fixed, random_floor;
  unfold_dom.

Lemma kept_checkBackendStatus : invariant I (checkBackendStatus env).
Proof. unfold checkBackendStatus. unfold_helpers. kept_walk. Qed.

Lemma kept_uploadToBackend : invariant I (uploadToBackend env).
Proof. unfold uploadToBackend. unfold_helpers. kept_walk. Qed.

Lemma kept_uploadOffline : invariant I (uploadOffline env).
Proof. unfold uploadOffline. unfold_helpers. kept_walk. Qed.

Lemma kept_runBackendSegmentation : invariant I (runBackendSegmentation env).
Proof. unfold runBackendSegmentation. unfold_helpers. kept_walk. Qed.

Lemma kept_runOfflineSegmentation : invariant I (runOfflineSegmentation env).
Proof. unfold runOfflineSegmentation. unfold_helpers. kept_walk. Qed.

Lemma kept_displayDetectionResult (results : Js.Val) :
  invariant I (displayDetectionResult env results).
Proof. unfold displayDetectionResult. kept_walk. Qed.

Lemma kept_runBackendDetection : invariant I (runBackendDetection env).
Proof.
  unfold runBackendDetection. unfold_helpers. kept_walk;
    apply kept_displayDetectionResult.
Qed.

Lemma kept_runOfflineDetection : invariant I (runOfflineDetection env).
Proof.
  unfold runOfflineDetection. unfold_helpers. kept_walk;
    apply kept_displayDetectionResult.
Qed.

Lemma kept_generateCombinedStatistics :
  invariant I (generateCombinedStatistics env).
Proof. unfold generateCombinedStatistics. unfold_helpers. kept_walk. Qed.

(** The part of [uploadImage] between the taking of the flags and the
    [finally] block. *)
Lemma kept_upload_body :
  invariant I
    (try_catch
       (online <- read isOnline;;
        if online : bool then uploadToBackend env else uploadOffline env)
       (fun error =>
          showNotification "Upload failed, using offline mode" "warning";;
          modify (set_isOnline false);;
          updateBackendStatusUI false;;
          uploadOffline env)).
Proof.
  unfold_dom. kept_walk;
    first [apply kept_uploadToBackend | apply kept_uploadOffline].
Qed.

(** The same part of a single stage. *)
Lemma kept_stage_body (remote local : Async unit) (message : string) :
  invariant I remote -> invariant I local ->
  invariant I
    (try_catch
       (r <- use_backend env;; if r : bool then remote else local)
       (fun error =>
          showNotification message "warning";;
          online <- read isOnline;;
          when online
            (modify (set_isOnline false);;
             updateBackendStatusUI false;;
             local))).
Proof. intros Hr Hl. unfold_helpers. kept_walk; assumption. Qed.

Lemma kept_runAll_body :
  invariant I
    (try_catch
       (runAll_segmentation env;; runAll_detection env;; runAll_analysis env)
       (fun error => showNotification ("Processing failed: " ++ error) "error")).
Proof.
  unfold runAll_segmentation, runAll_detection, runAll_analysis. unfold_helpers.
  kept_walk;
    first [ apply kept_runBackendSegmentation | apply kept_runOfflineSegmentation
          | apply kept_runBackendDetection | apply kept_runOfflineDetection
          | apply kept_generateCombinedStatistics ].
Qed.

Lemma kept_uploadImage : invariant I (uploadImage env).
Proof.
  unfold uploadImage. unfold_dom.
  kept_walk; first [apply kept_uploadToBackend | apply kept_uploadOffline].
Qed.

Lemma kept_runSegmentation : invariant I (runSegmentation env).
Proof.
  unfold runSegmentation. unfold_helpers.
  kept_walk;
    first [apply kept_runBackendSegmentation | apply kept_runOfflineSegmentation].
Qed.

Lemma kept_detectArtifacts : invariant I (detectArtifacts env).
Proof.
  unfold detectArtifacts. unfold_helpers.
  kept_walk;
    first [apply kept_runBackendDetection | apply kept_runOfflineDetection].
Qed.

Lemma kept_runAllProcessing : invariant I (runAllProcessing env).
Proof.
  unfold runAllProcessing, runAll_enter, runAll_segmentation, runAll_detection,
    runAll_analysis.
  unfold_helpers.
  kept_walk;
    first [ apply kept_runBackendSegmentation | apply kept_runOfflineSegmentation
          | apply kept_runBackendDetection | apply kept_runOfflineDetection
          | apply kept_generateCombinedStatistics ].
Qed.

Lemma kept_clearResults : invariant I (clearResults env).
Proof. unfold clearResults. unfold_dom. kept_walk. Qed.

Lemma kept_selectFile (file : File) : invariant I (selectFile file).
Proof. unfold selectFile. kept_walk. Qed.

Lemma kept_fitToBounds : invariant I fitToBounds.
Proof. unfold fitToBounds. kept_walk. Qed.

Lemma kept_handle (e : Event) (w : World) : I w -> I (handle env e w).
Proof.
  intro Hw. destruct e; cbn [handle].
  - now apply kept_checkBackendStatus.
  - now apply kept_selectFile.
  - destruct (selectedFile (app w)); [now apply kept_uploadImage | exact Hw].
  - now apply kept_runSegmentation.
  - now apply kept_detectArtifacts.
  - now apply kept_runAllProcessing.
  - now apply kept_clearResults.
  - now apply K_fire.
  - now apply kept_showNotification.
  - now apply kept_fitToBounds.
  - now apply kept_showNotification.
  - now apply kept_showNotification.
  - now apply kept_showNotification.
  - now apply kept_showNotification.
Qed.

Lemma kept_run (events : list Event) : forall w, I w -> I (run env events w).
Proof.
  induction events as [|e rest IH]; intros w Hw; simpl; [exact Hw|].
  apply IH. now apply kept_handle.
Qed.

Lemma try_finally_runs {A} (body : Async A) (final : World -> World) (w : World) :
  try_finally body final w = (fst (body w), final (snd (body w))).
Proof. unfold try_finally. now destruct (body w). Qed.

(** An admitted single stage, outside a complete run: it takes the busy
    flag, runs its body and queues its timer. *)
Lemma runSegmentation_brackets (w : World) (image : Image) :
  currentImage (app w) = Some image ->
  isProcessing (app w) = false ->
  runningAllProcess (app w) = false ->
  I (with_app (set_isProcessing true) w) ->
  exists w', exec (runSegmentation env) w = setTimeout StageDone w' /\ I w'.
Proof.
  intros Hi Hp Ha Hw. unfold exec, runSegmentation, showProgress.
  repeat step. rewrite Hi. repeat step. rewrite Hp, Ha. cbn [andb negb when].
  repeat step. rewrite try_finally_runs. cbn [snd].
  eexists. split; [reflexivity|].
  apply (kept_stage_body _ _ _ kept_runBackendSegmentation
           kept_runOfflineSegmentation _ Hw).
Qed.

Lemma detectArtifacts_brackets (w : World) (image : Image) :
  currentImage (app w) = Some image ->
  isProcessing (app w) = false ->
  runningAllProcess (app w) = false ->
  I (with_app (set_isProcessing true) w) ->
  exists w', exec (detectArtifacts env) w = setTimeout StageDone w' /\ I w'.
Proof.
  intros Hi Hp Ha Hw. unfold exec, detectArtifacts, showProgress.
  repeat step. rewrite Hi. repeat step. rewrite Hp, Ha. cbn [andb negb when].
  repeat step. rewrite try_finally_runs. cbn [snd].
  eexists. split; [reflexivity|].
  apply (kept_stage_body _ _ _ kept_runBackendDetection
           kept_runOfflineDetection _ Hw).
Qed.

Lemma runAllProcessing_brackets (w : World) (image : Image) :
  currentImage (app w) = Some image ->
  isProcessing (app w) = false ->
  I (with_app (set_runningAllProcess true) (with_app (set_isProcessing true) w)) ->
  exists w', exec (runAllProcessing env) w = setTimeout RunAllDone w' /\ I w'.
Proof.
  intros Hi Hp Hw. unfold exec, runAllProcessing, runAll_enter, showLoading.
  repeat step. rewrite Hi. repeat step. rewrite Hp. repeat step.
  cbv iota. rewrite try_finally_runs. cbn [snd].
  eexists. split; [reflexivity|].
  apply (kept_runAll_body _ Hw).
Qed.

Lemma uploadImage_brackets (w : World) (file : File) :
  selectedFile (app w) = Some file ->
  isUploading (app w) = false ->
  I (with_app (set_isProcessing true) (with_app (set_isUploading true) w)) ->
  exists w', exec (uploadImage env) w = setTimeout UploadDone w' /\ I w'.
Proof.
  intros Hf Hu Hw. unfold exec, uploadImage, showProgress.
  repeat step. rewrite Hf. repeat step. rewrite Hu. repeat step.
  rewrite try_finally_runs. cbn [snd].
  eexists. split; [reflexivity|].
  apply (kept_upload_body _ Hw).
Qed.

(** A single stage admitted during a complete run: it takes no flag. *)
Lemma runSegmentation_joins (w : World) (image : Image) :
  currentImage (app w) = Some image ->
  runningAllProcess (app w) = true ->
  I w ->
  exists w', exec (runSegmentation env) w = setTimeout StageDone w' /\ I w'.
Proof.
  intros Hi Ha Hw. unfold exec, runSegmentation, showProgress.
  repeat step. rewrite Hi. repeat step. rewrite Ha, andb_false_r.
  cbn [negb when]. repeat step. rewrite try_finally_runs. cbn [snd].
  eexists. split; [reflexivity|].
  apply (kept_stage_body _ _ _ kept_runBackendSegmentation
           kept_runOfflineSegmentation _ Hw).
Qed.

Lemma detectArtifacts_joins (w : World) (image : Image) :
  currentImage (app w) = Some image ->
  runningAllProcess (app w) = true ->
  I w ->
  exists w', exec (detectArtifacts env) w = setTimeout StageDone w' /\ I w'.
Proof.
  intros Hi Ha Hw. unfold exec, detectArtifacts, showProgress.
  repeat step. rewrite Hi. repeat step. rewrite Ha, andb_false_r.
  cbn [negb when]. repeat step. rewrite try_finally_runs. cbn [snd].
  eexists. split; [reflexivity|].
  apply (kept_stage_body _ _ _ kept_runBackendDetection
           kept_runOfflineDetection _ Hw).
Qed.

End Kept.

Lemma busy_call_only_warns_witness :
  exec (runSegmentation unreachable_env) uploading_session
  = noted "Another process is currently running" "warning" uploading_session.
Proof.
  destruct (busy_call_only_warns unreachable_env uploading_session
              (local_image unreachable_env site1 (clock 0)) eq_refl eq_refl)
    as (_ & H).
  destruct (H eq_refl) as (Hs & _). unfold exec. now rewrite Hs.
Defined.

Lemma upload_guards_only_warn_witness :
  exec (uploadImage unreachable_env) (boot true)
  = noted "Please select an image file first" "warning" (boot true)
  /\ exec (uploadImage unreachable_env) uploading_session
     = noted "Upload already in progress" "warning" uploading_session.
Proof.
  split.
  - destruct (upload_guards_only_warn unreachable_env (boot true)) as (H & _).
    unfold exec. now rewrite (H eq_refl).
  - destruct (upload_guards_only_warn unreachable_env uploading_session)
      as (_ & H).
    unfold exec. rewrite H; [reflexivity | discriminate | reflexivity].
Defined.

(* ================================================================== *)
(** ** The busy flag of an admitted call *)




Ltac same_flags :=
  intros;
  match goal with H : holds_flags _ _ _ _ _ |- _ => exact H end.






(* ================================================================== *)
(** ** Invariants of a session *)

(** A timer coming due touches the flags and the queue only. *)
Lemma fire_frame (n : nat) (w : World) :
  requests (fire n w) = requests w
  /\ notifications (fire n w) = notifications w
  /\ baseUrl (app (fire n w)) = baseUrl (app w)
  /\ processingResults (app (fire n w)) = processingResults (app w)
  /\ currentImage (app (fire n w)) = currentImage (app w)
  /\ imageOverlay (app (fire n w)) = imageOverlay (app w)
  /\ imageBounds (app (fire n w)) = imageBounds (app w)
  /\ isOnline (app (fire n w)) = isOnline (app w).
Proof.
  unfold fire. destruct (nth_error (timers w) n) as [[| |]|]; cbn;
    try destruct (runningAllProcess (app w)); repeat split.
Qed.

Ltac by_frame :=
  intros;
  match goal with H : _ |- _ => exact H end.

Lemma to_backend_sent (base : string) (w0 w : World) (r : Request) :
  to_backend base w0 -> to_backend base w ->
  backend_request (baseUrl (app w0)) r = true ->
  to_backend base (sent r w).
Proof.
  intros (H0 & _) (Hb & Hr) Hreq. split; [exact Hb|].
  cbn [requests sent]. rewrite forallb_app, Hr. cbn [forallb andb].
  rewrite H0 in Hreq. now rewrite Hreq.
Qed.

Lemma to_backend_fire (base : string) (n : nat) (w : World) :
  to_backend base w -> to_backend base (fire n w).
Proof.
  intros (Hb & Hr). destruct (fire_frame n w) as (E1 & _ & E2 & _).
  unfold to_backend. now rewrite E1, E2.
Qed.

(** X6. Whatever happens to the page, every request it issues goes to the
    configured backend, to its root or to one of the upload, segment and
    detect endpoints, and the configured address does not change. *)
Theorem requests_go_to_backend (env : Env) (events : list Event) (w : World)
    (base : string) :
  to_backend base w -> to_backend base (run env events w).
Proof.
  apply (kept_run env (to_backend base)); try by_frame.
  - apply to_backend_sent.
  - apply to_backend_fire.
Qed.

Lemma requests_go_to_backend_witness :
  to_backend "http://localhost:5000"
    (run failing_stage_env
       [Probe; FileChosen site1; UploadClicked; TimerDue 0; SegmentClicked;
        TimerDue 0; RunAllClicked]
       (boot false)).
Proof.
  apply requests_go_to_backend. split; reflexivity.
Defined.

Lemma types_known_noted (m t : string) (w : World) :
  known_type t = true -> types_known w -> types_known (noted m t w).
Proof.
  unfold types_known. intros Ht H. cbn [notifications noted].
  rewrite forallb_app, H. cbn [forallb andb snd]. now rewrite Ht.
Qed.

Lemma types_known_fire (n : nat) (w : World) :
  types_known w -> types_known (fire n w).
Proof.
  unfold types_known. destruct (fire_frame n w) as (_ & E & _). now rewrite E.
Qed.

Lemma known_type_style (t : string) :
  known_type t = true -> toast_style t <> ("Notification", "bg-primary", "fa-bell").
Proof.
  unfold known_type, toast_style. cbn [existsb].
  destruct (String.eqb t "success"); [discriminate|].
  destruct (String.eqb t "error"); [discriminate|].
  destruct (String.eqb t "warning"); [discriminate|].
  destruct (String.eqb t "info"); [discriminate|]. discriminate.
Qed.

(** X7. Every notification raised in a session -- by the start of the
    page, the pipeline, the clearing of the results, the fitting of the map,
    the export and download buttons -- is of type success, error, warning
    or info, so the toast never falls back to its default title, colour and
    icon. *)
Theorem notifications_have_known_types (env : Env) (events : list Event)
    (isProduction : bool) (n : string * string) :
  In n (notifications (run env events (boot isProduction))) ->
  known_type (snd n) = true
  /\ toast_style (snd n) <> ("Notification", "bg-primary", "fa-bell").
Proof.
  intro Hn.
  assert (H : types_known (run env events (boot isProduction))).
  { apply (kept_run env types_known); try by_frame.
    - apply types_known_noted.
    - apply types_known_fire.
    - reflexivity. }
  unfold types_known in H. rewrite forallb_forall in H.
  specialize (H n Hn). split; [exact H | now apply known_type_style].
Qed.

Lemma notifications_have_known_types_witness :
  known_type "error" = true
  /\ toast_style "error" <> ("Notification", "bg-primary", "fa-bell").
Proof.
  apply (notifications_have_known_types failing_stage_env
           [MapFailed; Probe; FileChosen site1; UploadClicked; TimerDue 0;
            FitClicked; RunAllClicked; ExportCSVClicked; DownloadClicked]
           true ("Processing failed: Segmentation failed: 500", "error")).
  vm_compute. tauto.
Defined.

Lemma slot_ok_success (v : Js.Val) :
  Js.truthy (Js.opt_get v "success") = true -> slot_ok v = true.
Proof. destruct v; simpl; intro H; try exact H. reflexivity. Qed.

Lemma slots_ok_fire (n : nat) (w : World) : slots_ok w -> slots_ok (fire n w).
Proof.
  unfold slots_ok. destruct (fire_frame n w) as (_ & _ & _ & E & _). now rewrite E.
Qed.

(** X8. From the start of a session on, the segmentation slot and the
    detection slot are each either empty or hold an object whose [success]
    is truthy: a response that reports failure is never stored. *)
Theorem slots_never_hold_failure (env : Env) (events : list Event)
    (isProduction : bool) :
  slots_ok (run env events (boot isProduction)).
Proof.
  apply (kept_run env slots_ok); try by_frame.
  - apply slots_ok_fire.
  - intros v w Hv (_ & Hd). split; [now apply slot_ok_success | exact Hd].
  - intros v w Hv (Hs & _). split; [exact Hs | now apply slot_ok_success].
  - intros w _. split; reflexivity.
  - split; reflexivity.
Qed.

(* ================================================================== *)
(** ** The image on the map *)

Lemma bind_ret_tt (m : Async unit) (w : World) :
  bind m (fun _ => ret tt) w = m w.
Proof. unfold bind, ret. now destruct (m w) as [[[]|e] w']. Qed.

(** [uploadOffline] sets the local image, shows it and ends in the legend. *)
Lemma uploadOffline_stores (env : Env) (w : World) (file : File) :
  selectedFile (app w) = Some file ->
  uploadOffline env w
  = updateLegendValues env
      (with_app (displayed (readAsDataURL env file))
         (noted "Image loaded for offline processing" "success"
            (with_app
               (set_currentImage
                  (Some (local_image env file (now env (clock_reads w)))))
               (ticked w)))).
Proof.
  intro Hf.
  unfold uploadOffline, displayLocalImage, selected_file, Date_toISOString.
  unfold_dom. repeat step. rewrite Hf. repeat step.
  now rewrite bind_ret_tt.
Qed.

Lemma uploadOffline_shows (env : Env) (w : World) (file : File) :
  selectedFile (app w) = Some file -> shown (exec (uploadOffline env) w).
Proof.
  intro Hf. unfold exec.
  rewrite (uploadOffline_stores env w file Hf), updateLegendValues_exec.
  repeat split; discriminate.
Qed.

(** [uploadToBackend] either shows the image of the server, or fails and
    leaves the chosen file as it is. *)
Lemma uploadToBackend_shows (env : Env) (w : World) (file : File) :
  selectedFile (app w) = Some file ->
  match uploadToBackend env w with
  | (Normal _, w') => shown w'
  | (Throw _, w') => selectedFile (app w') = Some file
  end.
Proof.
  intro Hf. unfold uploadToBackend, selected_file, member,
    response_json, await_fetch, displayImage.
  unfold_dom.
  pose proof (updateLegendValues_exec env) as Hl.
  set (legend := updateLegendValues env) in *. clearbody legend.
  run_method. rewrite Hf. simpl.
  destruct (fetch env _ _) as [e|[|] s [v|e]]; simpl; try exact Hf.
  destruct (Js.get v "success") as [success|]; simpl; [|exact Hf].
  destruct (Js.truthy success); simpl; [|exact Hf].
  destruct (Js.truthy (Js.opt_get v "file_size_mb")); simpl; rewrite ?Hf; simpl;
    match goal with |- context [legend ?W] =>
      specialize (Hl W); destruct (legend W) as [[[]|e] w'] end;
    simpl in *; subst w'; simpl; first [exact Hf | repeat split; discriminate].
Qed.

Lemma upload_body_shows (env : Env) (w1 : World) (file : File) :
  selectedFile (app w1) = Some file ->
  shown
    (snd (try_catch
       (online <- read isOnline;;
        if online : bool then uploadToBackend env else uploadOffline env)
       (fun error =>
          showNotification "Upload failed, using offline mode" "warning";;
          modify (set_isOnline false);;
          updateBackendStatusUI false;;
          uploadOffline env) w1)).
Proof.
  intro Hf1.
  assert (Hcatch : forall w2,
             selectedFile (app w2) = Some file ->
             shown (snd ((showNotification "Upload failed, using offline mode" "warning";;
                          modify (set_isOnline false);;
                          updateBackendStatusUI false;;
                          uploadOffline env) w2))).
  { intros w2 H2. unfold updateBackendStatusUI.
    erewrite bind_runs by reflexivity.
    erewrite bind_runs by apply modify_runs.
    erewrite bind_runs by reflexivity.
    apply (uploadOffline_shows env _ file). exact H2. }
  unfold try_catch. erewrite bind_runs by apply read_runs.
  destruct (isOnline (app w1)).
  - pose proof (uploadToBackend_shows env w1 file Hf1) as Hb.
    destruct (uploadToBackend env w1) as [[[]|e] w2]; [exact Hb|].
    apply Hcatch. exact Hb.
  - rewrite (uploadOffline_stores env w1 file Hf1).
    match goal with |- context [updateLegendValues env ?W] =>
      pose proof (updateLegendValues_exec env W) as Hl;
      destruct (updateLegendValues env W) as [[[]|e] w2] end;
      cbn [snd] in Hl; subst w2; [repeat split; discriminate|].
    apply Hcatch. exact Hf1.
Qed.

Lemma uploadImage_shows (env : Env) (w : World) (file : File) :
  selectedFile (app w) = Some file ->
  isUploading (app w) = false ->
  shown (exec (uploadImage env) w).
Proof.
  intros Hf Hu. unfold exec, uploadImage, showProgress.
  repeat step. rewrite Hf. repeat step. rewrite Hu. repeat step.
  rewrite try_finally_runs. cbn [snd].
  assert (Hshown : forall w2, shown w2 -> shown (setTimeout UploadDone w2))
    by (intros w2 H; exact H).
  apply Hshown.
  exact (upload_body_shows env
           (with_app (set_isProcessing true) (with_app (set_isUploading true) w))
           file Hf).
Qed.


Lemma same_image_state (w w' : World) :
  same_image (app w) w' -> image_state (app w') = image_state (app w).
Proof. intros (H1 & H2 & H3). unfold image_state. now rewrite H1, H2, H3. Qed.

Lemma shown_state (w : World) : shown w -> image_state (app w) = true.
Proof.
  intros (H1 & H2 & H3). unfold image_state.
  destruct (currentImage (app w)); [|easy].
  destruct (imageOverlay (app w)); [|easy].
  destruct (imageBounds (app w)); easy.
Qed.

Lemma image_state_handle (env : Env) (e : Event) (w : World) :
  image_state (app w) = true -> image_state (app (handle env e w)) = true.
Proof.
  intro H.
  assert (S0 : same_image (app w) w) by (now repeat split).
  assert (Same : forall w', same_image (app w) w' -> image_state (app w') = true)
    by (intros w' Hw'; now rewrite (same_image_state w w' Hw')).
  destruct e; cbn [handle].
  - apply Same.
    apply (kept_checkBackendStatus env (same_image (app w))); try by_frame.
  - apply Same. apply (kept_selectFile (same_image (app w))); try by_frame.
  - destruct (selectedFile (app w)) as [file|] eqn:Hf; [|exact H].
    destruct (isUploading (app w)) eqn:Hu.
    + unfold exec, uploadImage. repeat step. rewrite Hf. repeat step.
      rewrite Hu. exact H.
    + apply shown_state. now apply (uploadImage_shows env w file).
  - apply Same.
    apply (kept_runSegmentation env (same_image (app w))); try by_frame.
  - apply Same.
    apply (kept_detectArtifacts env (same_image (app w))); try by_frame.
  - apply Same.
    apply (kept_runAllProcessing env (same_image (app w))); try by_frame.
  - apply Same.
    apply (kept_clearResults env (same_image (app w))); try by_frame.
  - apply Same. destruct (fire_frame n w) as (_ & _ & _ & _ & E1 & E2 & E3 & _).
    now repeat split.
  - apply Same.
    apply (kept_showNotification (same_image (app w))); try by_frame. reflexivity.
  - apply Same. apply (kept_fitToBounds (same_image (app w))); try by_frame.
  - apply Same.
    apply (kept_showNotification (same_image (app w))); try by_frame. reflexivity.
  - apply Same.
    apply (kept_showNotification (same_image (app w))); try by_frame. reflexivity.
  - apply Same.
    apply (kept_showNotification (same_image (app w))); try by_frame. reflexivity.
  - apply Same.
    apply (kept_showNotification (same_image (app w))); try by_frame. reflexivity.
Qed.

Lemma image_state_run (env : Env) (events : list Event) :
  forall w, image_state (app w) = true -> image_state (app (run env events w)) = true.
Proof.
  induction events as [|e rest IH]; intros w H; simpl; [exact H|].
  apply IH. now apply image_state_handle.
Qed.

(** X9. After every event of a session in which each call has run to its
    end before the next event arrives (no call is in flight: an upload has
    passed its delay and the load of its file reader), the uploaded image,
    its overlay and the overlay's bounds are all present or all absent; so
    [fitToBounds], called then, reports that no image is loaded exactly when
    none has been uploaded, and fits the map otherwise.  Inside a call the
    three need not agree: [uploadOffline] sets the image before the reader
    has loaded the overlay. *)
Theorem fit_to_bounds_follows_upload (env : Env) (events : list Event)
    (isProduction : bool) :
  let w := run env events (boot isProduction) in
  image_state (app w) = true
  /\ (currentImage (app w) = None ->
      fitToBounds w = (Normal tt, noted "No image loaded" "warning" w))
  /\ (currentImage (app w) <> None ->
      fitToBounds w
      = (Normal tt, noted "Map fitted to image bounds" "success" w)).
Proof.
  intro w.
  assert (H : image_state (app w) = true)
    by (apply image_state_run; reflexivity).
  split; [exact H|].
  unfold image_state in H. unfold fitToBounds.
  split; intro Hc; repeat step;
    destruct (currentImage (app w)), (imageOverlay (app w)),
      (imageBounds (app w)); try discriminate; try reflexivity; easy.
Qed.

Lemma fit_to_bounds_follows_upload_witness :
  fitToBounds (boot true)
  = (Normal tt, noted "No image loaded" "warning" (boot true))
  /\ fitToBounds offline_session
     = (Normal tt, noted "Map fitted to image bounds" "success" offline_session).
Proof.
  split.
  - destruct (fit_to_bounds_follows_upload unreachable_env [] true) as (_ & H & _).
    apply H. reflexivity.
  - destruct (fit_to_bounds_follows_upload unreachable_env
                [Probe; FileChosen site1; UploadClicked; TimerDue 0] true)
      as (_ & _ & H).
    apply H. discriminate.
Defined.

(* ================================================================== *)
(** ** Uploading without the service *)






(* ================================================================== *)
(** ** Markers *)



(* ================================================================== *)
(** ** The synthetic results in full *)

(** X12. Whatever [Math.random] draws, the artifacts of the synthetic
    detection result are numbered 1, 2, ... in their order, with an area of
    500 to 2500, a center in 0..999 on both axes and a box at 0..799 of
    width and height 50..249, all whole numbers; and the synthetic
    segmentation result counts between 1000000 and 1499999 pixels.  (The
    upper bound of the area is 2500 and not 2499: in the arithmetic of the
    browser the sum [r * 2000 + 500] is rounded, and for a draw next to 1 it
    is rounded to 2500.) *)
Theorem synthetic_artifacts_numbered (env : Env) (w : World) :
  random_in_range env ->
  numbered 0 (items_of (det_of (exec (runOfflineDetection env) w))) = true
  /\ whole 1000000 1499999
       (Js.opt_get (seg_of (exec (runOfflineSegmentation env) w))
          "pixels_analyzed") = true.
Proof.
  intro Hr. split.
  - destruct (runOfflineDetection_stores env w Hr)
      as (items & markers & E & _ & _ & Hn & _).
    unfold exec. rewrite E, updateLegendValues_exec.
    destruct (runningAllProcess (app w)); exact Hn.
  - destruct (runOfflineSegmentation_stores env w Hr) as (v & E & _ & Hp).
    unfold exec. rewrite E, updateLegendValues_exec.
    destruct (runningAllProcess (app w)); exact Hp.
Qed.

Lemma synthetic_artifacts_numbered_witness :
  numbered 0
    (items_of (det_of (exec (runOfflineDetection unreachable_env)
                         offline_session))) = true
  /\ whole 1000000 1499999
       (Js.opt_get (seg_of (exec (runOfflineSegmentation unreachable_env)
                              offline_session))
          "pixels_analyzed") = true.
Proof.
  apply (synthetic_artifacts_numbered unreachable_env offline_session).
  intro i. split; [discriminate | reflexivity].
Defined.

(* ================================================================== *)
(** ** The complete run without the service *)








(* ================================================================== *)
(** ** A stage that the service answers *)











(* ================================================================== *)
(** ** A stage that stays local *)



(* ================================================================== *)
(** ** An upload that the service accepts *)







(* ================================================================== *)
(** ** What an upload leaves of the results *)



(* ================================================================== *)
(** ** No flag without its timer *)

Lemma in_remove_nth {A} (x y : A) (l : list A) :
  forall n, In x l -> nth_error l n = Some y -> x <> y -> In x (remove_nth n l).
Proof.
  induction l as [|z l IH]; intros n Hin Hn Hxy; [destruct Hin|].
  destruct n as [|n]; simpl in *.
  - injection Hn as ->. destruct Hin as [->|Hin]; [now elim Hxy | exact Hin].
  - destruct Hin as [->|Hin]; [now left | right; now apply IH].
Qed.

Lemma releasable_same (w w' : World) :
  holds_flags (isProcessing (app w)) (isUploading (app w))
    (runningAllProcess (app w)) (timers w) w' ->
  releasable w -> releasable w'.
Proof.
  intros (Hp & Hu & Ha & Ht) J. unfold releasable.
  rewrite Hp, Hu, Ha, Ht. exact J.
Qed.

Lemma releasable_queued (w w' : World) (t : Timer) (p u a : bool) :
  holds_flags p u a (timers w) w' ->
  releasable w ->
  (u = true -> isUploading (app w) = true \/ t = UploadDone) ->
  (a = true -> runningAllProcess (app w) = true \/ t = RunAllDone) ->
  releasable (setTimeout t w').
Proof.
  intros (Hp & Hu & Ha & Ht) (J1 & J2 & J3) C1 C2. unfold releasable.
  cbn [app timers setTimeout]. rewrite Hu, Ha, Ht.
  split; [|split].
  - intro E. apply in_or_app. destruct (C1 E) as [E'| ->].
    + left. now apply J1.
    + right. now left.
  - intro E. apply in_or_app. destruct (C2 E) as [E'| ->].
    + left. now apply J2.
    + right. now left.
  - intros _ H. now destruct (timers w).
Qed.

Lemma releasable_fire (n : nat) (w : World) :
  releasable w -> releasable (fire n w).
Proof.
  intros (J1 & J2 & J3). unfold fire.
  destruct (nth_error (timers w) n) as [t|] eqn:E; [|now repeat split].
  unfold releasable. cbn [app timers].
  destruct t; cbn [run_timer].
  - split; [|split]; cbn; try discriminate.
    intro Ha. apply (in_remove_nth _ UploadDone); [now apply J2 | exact E | discriminate].
  - destruct (runningAllProcess (app w)) eqn:Ha.
    + rewrite Ha. split; [|split].
      * intro Hu.
        apply (in_remove_nth _ StageDone); [now apply J1 | exact E | discriminate].
      * intros _.
        apply (in_remove_nth _ StageDone); [now apply J2 | exact E | discriminate].
      * intros _ Hnil.
        assert (H : In RunAllDone (remove_nth n (timers w)))
          by (apply (in_remove_nth _ StageDone);
              [now apply J2 | exact E | discriminate]).
        rewrite Hnil in H. destruct H.
    + split; [|split]; cbn; try (rewrite Ha); try discriminate.
      intro Hu.
      apply (in_remove_nth _ StageDone); [now apply J1 | exact E | discriminate].
  - split; [|split]; cbn; try discriminate.
    intro Hu.
    apply (in_remove_nth _ RunAllDone); [now apply J1 | exact E | discriminate].
Qed.

Ltac with_flags B := repeat (specialize (B ltac:(same_flags))).

Lemma releasable_stage (env : Env) (w : World) :
  releasable w ->
  releasable (exec (runSegmentation env) w)
  /\ releasable (exec (detectArtifacts env) w).
Proof.
  intro J.
  destruct (currentImage (app w)) as [image|] eqn:Hi.
  2: { split; unfold exec, runSegmentation, detectArtifacts; repeat step;
       rewrite Hi; exact J. }
  destruct (isProcessing (app w) && negb (runningAllProcess (app w))) eqn:Hb.
  { split; unfold exec, runSegmentation, detectArtifacts; repeat step;
      rewrite Hi; repeat step; rewrite Hb; exact J. }
  destruct (runningAllProcess (app w)) eqn:Ha.
  - assert (H1 : holds_flags (isProcessing (app w)) (isUploading (app w)) true
                   (timers w) w) by (now repeat split).
    pose proof (runSegmentation_joins env
                  (holds_flags (isProcessing (app w)) (isUploading (app w)) true
                     (timers w))) as Bs.
    pose proof (detectArtifacts_joins env
                  (holds_flags (isProcessing (app w)) (isUploading (app w)) true
                     (timers w))) as Bd.
    with_flags Bs. with_flags Bd.
    destruct (Bs w image Hi Ha H1) as (ws & Es & Hs).
    destruct (Bd w image Hi Ha H1) as (wd & Ed & Hd).
    rewrite Es, Ed.
    split; eapply releasable_queued; try eassumption;
      intro E; left; first [exact E | exact Ha].
  - rewrite andb_true_r in Hb.
    assert (H1 : holds_flags true (isUploading (app w)) false (timers w)
                   (with_app (set_isProcessing true) w)) by (now repeat split).
    pose proof (runSegmentation_brackets env
                  (holds_flags true (isUploading (app w)) false (timers w)))
      as Bs.
    pose proof (detectArtifacts_brackets env
                  (holds_flags true (isUploading (app w)) false (timers w)))
      as Bd.
    with_flags Bs. with_flags Bd.
    destruct (Bs w image Hi Hb Ha H1) as (ws & Es & Hs).
    destruct (Bd w image Hi Hb Ha H1) as (wd & Ed & Hd).
    rewrite Es, Ed.
    split; eapply releasable_queued; try eassumption;
      intro E; first [left; exact E | discriminate E].
Qed.

Lemma releasable_runAllProcessing (env : Env) (w : World) :
  releasable w -> releasable (exec (runAllProcessing env) w).
Proof.
  intro J.
  destruct (currentImage (app w)) as [image|] eqn:Hi.
  2: { unfold exec, runAllProcessing, runAll_enter; repeat step;
       rewrite Hi; repeat step; exact J. }
  destruct (isProcessing (app w)) eqn:Hp.
  { unfold exec, runAllProcessing, runAll_enter; repeat step;
      rewrite Hi; repeat step; rewrite Hp; repeat step; exact J. }
  assert (H1 : holds_flags true (isUploading (app w)) true (timers w)
                 (with_app (set_runningAllProcess true)
                    (with_app (set_isProcessing true) w)))
    by (now repeat split).
  pose proof (runAllProcessing_brackets env
                (holds_flags true (isUploading (app w)) true (timers w))) as B.
  with_flags B.
  destruct (B w image Hi Hp H1) as (w' & E & H').
  rewrite E.
  eapply releasable_queued; try eassumption; intro E'; [left; exact E' | now right].
Qed.

Lemma releasable_uploadImage (env : Env) (w : World) (file : File) :
  selectedFile (app w) = Some file ->
  releasable w -> releasable (exec (uploadImage env) w).
Proof.
  intros Hf J.
  destruct (isUploading (app w)) eqn:Hu.
  { unfold exec, uploadImage; repeat step; rewrite Hf; repeat step;
      rewrite Hu; exact J. }
  assert (H1 : holds_flags true true (runningAllProcess (app w)) (timers w)
                 (with_app (set_isProcessing true)
                    (with_app (set_isUploading true) w)))
    by (now repeat split).
  pose proof (uploadImage_brackets env
                (holds_flags true true (runningAllProcess (app w)) (timers w)))
    as B.
  with_flags B.
  destruct (B w file Hf Hu H1) as (w' & E & H').
  rewrite E.
  eapply releasable_queued; try eassumption; intro E'; [now right | left; exact E'].
Qed.

Lemma releasable_handle (env : Env) (e : Event) (w : World) :
  releasable w -> releasable (handle env e w).
Proof.
  intro J.
  assert (S0 : holds_flags (isProcessing (app w)) (isUploading (app w))
                 (runningAllProcess (app w)) (timers w) w)
    by (now repeat split).
  assert (Same : forall w',
             holds_flags (isProcessing (app w)) (isUploading (app w))
               (runningAllProcess (app w)) (timers w) w' -> releasable w')
    by (intros w' H; exact (releasable_same w w' H J)).
  destruct e; cbn [handle].
  - apply Same.
    apply (kept_checkBackendStatus env
             (holds_flags (isProcessing (app w)) (isUploading (app w))
                (runningAllProcess (app w)) (timers w))); try same_flags.
  - apply Same.
    apply (kept_selectFile
             (holds_flags (isProcessing (app w)) (isUploading (app w))
                (runningAllProcess (app w)) (timers w))); try same_flags.
  - destruct (selectedFile (app w)) as [file|] eqn:Hf; [|exact J].
    exact (releasable_uploadImage env w file Hf J).
  - exact (proj1 (releasable_stage env w J)).
  - exact (proj2 (releasable_stage env w J)).
  - exact (releasable_runAllProcessing env w J).
  - apply Same.
    apply (kept_clearResults env
             (holds_flags (isProcessing (app w)) (isUploading (app w))
                (runningAllProcess (app w)) (timers w))); try same_flags.
  - exact (releasable_fire n w J).
  - apply Same. exact S0.
  - apply Same.
    apply (kept_fitToBounds
             (holds_flags (isProcessing (app w)) (isUploading (app w))
                (runningAllProcess (app w)) (timers w))); try same_flags.
  - apply Same. exact S0.
  - apply Same. exact S0.
  - apply Same. exact S0.
  - apply Same. exact S0.
Qed.

Lemma releasable_run (env : Env) (events : list Event) :
  forall w, releasable w -> releasable (run env events w).
Proof.
  induction events as [|e rest IH]; intros w J; simpl; [exact J|].
  apply IH. now apply releasable_handle.
Qed.

(** X17. After every event of a session in which each call has run to its
    end before the next event arrives (no call is in flight), a flag that
    is set has a timer pending that resets it: the upload flag an
    [UploadDone], the run-all flag a [RunAllDone], the busy flag some timer.
    So between two calls, once no timer is pending, no flag is set and
    every operation is admitted again.  Inside a call the flags are set
    before the timer is queued, which the [finally] block does last. *)
Theorem flags_wait_for_timers (env : Env) (events : list Event)
    (isProduction : bool) :
  let w := run env events (boot isProduction) in
  releasable w
  /\ (timers w = [] ->
      isProcessing (app w) = false
      /\ isUploading (app w) = false
      /\ runningAllProcess (app w) = false).
Proof.
  intro w.
  assert (J : releasable w).
  { apply releasable_run. repeat split; intro H; discriminate H. }
  split; [exact J|].
  destruct J as (J1 & J2 & J3). intro Hnil. rewrite Hnil in *.
  repeat split.
  - destruct (isProcessing (app w)); [now elim (J3 eq_refl) | reflexivity].
  - destruct (isUploading (app w)); [destruct (J1 eq_refl) | reflexivity].
  - destruct (runningAllProcess (app w)); [destruct (J2 eq_refl) | reflexivity].
Qed.

Lemma flags_wait_for_timers_witness :
  let w := run unreachable_env
             [Probe; FileChosen site1; UploadClicked; TimerDue 0;
              RunAllClicked; TimerDue 0] (boot true) in
  timers w = []
  /\ isProcessing (app w) = false
  /\ isUploading (app w) = false
  /\ runningAllProcess (app w) = false.
Proof.
  intro w.
  assert (Ht : timers w = []) by (vm_compute; reflexivity).
  split; [exact Ht|].
  exact (proj2 (flags_wait_for_timers unreachable_env
                  [Probe; FileChosen site1; UploadClicked; TimerDue 0;
                   RunAllClicked; TimerDue 0] true) Ht).
Defined.

(* ================================================================== *)
(** ** The complete run with the service *)


